(** * HiRezAPI: partial/full players, reference-data caches and lookup helpers

    A shallow embedding of
      - [hirezapi/utils.py]  ([get], [get_name_or_id], [ServerStatus]),
      - [hirezapi/api.py]    ([PaladinsAPI.get_server_status],
                              [PaladinsAPI.get_champion_info]),
      - [arez/player.py]     ([PartialPlayer], [Player] and their methods),
    followed by the properties of the specification that they decide.

    Python values are a small dynamically typed universe [pyval]; a call that
    may raise returns an [outcome]; a coroutine of the API client is a
    function of the client's state that returns an outcome and the new state.
    Floating-point numbers are left out of the value universe. *)

From Stdlib Require Import ZArith String Ascii List Bool Lia.
From stdpp Require Import base gmap strings.
Import ListNotations.

Local Open Scope string_scope.
Local Open Scope Z_scope.

(** ** Exceptions and outcomes *)

Inductive exn : Type :=
| TypeError | KeyError | AttributeError | ValueError | IndexError
| AssertionError
| Private            (* arez.exceptions.Private *)
| TransportError.    (* a failure of the transport behind [request] *)

Inductive outcome (A : Type) : Type :=
| Ret (a : A)
| Raise (e : exn).
Arguments Ret {A} a.
Arguments Raise {A} e.

Definition obind {A B} (m : outcome A) (k : A -> outcome B) : outcome B :=
  match m with
  | Ret a => k a
  | Raise e => Raise e
  end.

Notation "x <~ m ;; k" := (obind m (fun x => k))
  (at level 100, m at next level, right associativity).

Fixpoint omap {A B} (f : A -> outcome B) (l : list A) : outcome (list B) :=
  match l with
  | [] => Ret []
  | x :: r => y <~ f x ;; ys <~ omap f r ;; Ret (y :: ys)
  end.

(** ** Python values *)

#[local] Unset Elimination Schemes.

(** [VDict] is a [dict] with text keys in insertion order (a JSON object, or
    the keyword arguments of a call); [VObj] is an instance of a plain class:
    its identity and its attribute dictionary. *)
Inductive pyval : Type :=
| VNone
| VBool (b : bool)
| VInt (z : Z)
| VStr (s : string)
| VList (l : list pyval)
| VDict (d : list (string * pyval))
| VObj (addr : nat) (attrs : list (string * pyval)).

#[local] Set Elimination Schemes.

Fixpoint assoc {A} (k : string) (d : list (string * A)) : option A :=
  match d with
  | [] => None
  | (k', v) :: r => if String.eqb k k' then Some v else assoc k r
  end.

(** [d[k] = v] on a dict, [setattr(o, k, v)] on an attribute dictionary. *)
Fixpoint assoc_set {A} (k : string) (v : A) (d : list (string * A))
  : list (string * A) :=
  match d with
  | [] => [(k, v)]
  | (k', v') :: r =>
      if String.eqb k k' then (k, v) :: r else (k', v') :: assoc_set k v r
  end.

(** [bool(v)] *)
Definition truthy (v : pyval) : bool :=
  match v with
  | VNone => false
  | VBool b => b
  | VInt z => negb (z =? 0)
  | VStr s => negb (String.eqb s "")
  | VList l => match l with [] => false | _ => true end
  | VDict d => match d with [] => false | _ => true end
  | VObj _ _ => true
  end.

(** [a == b]: numbers by value ([True == 1]), text and lists by content,
    dicts by their items whatever the order, instances by identity. *)
Fixpoint py_eq (a b : pyval) {struct a} : bool :=
  match a, b with
  | VNone, VNone => true
  | VBool x, VBool y => Bool.eqb x y
  | VBool x, VInt y => Z.b2z x =? y
  | VInt x, VBool y => x =? Z.b2z y
  | VInt x, VInt y => x =? y
  | VStr x, VStr y => String.eqb x y
  | VList xs, VList ys =>
      (fix all2 (xs ys : list pyval) {struct xs} : bool :=
         match xs, ys with
         | [], [] => true
         | x :: xs', y :: ys' => py_eq x y && all2 xs' ys'
         | _, _ => false
         end) xs ys
  | VDict d, VDict d' =>
      Nat.eqb (List.length d) (List.length d') &&
      (fix items (d : list (string * pyval)) : bool :=
         match d with
         | [] => true
         | (k, v) :: r =>
             match assoc k d' with
             | Some v' => py_eq v v'
             | None => false
             end && items r
         end) d
  | VObj i _, VObj j _ => Nat.eqb i j
  | _, _ => false
  end.

(** [isinstance(v, int)] ([bool] is a subclass of [int]) and
    [isinstance(v, str)]. *)
Definition isinstance_int (v : pyval) : bool :=
  match v with VInt _ | VBool _ => true | _ => false end.

Definition isinstance_str (v : pyval) : bool :=
  match v with VStr _ => true | _ => false end.

(** [v[k]] for a text key. *)
Definition getitem (v : pyval) (k : string) : outcome pyval :=
  match v with
  | VDict d =>
      match assoc k d with
      | Some x => Ret x
      | None => Raise KeyError
      end
  | _ => Raise TypeError
  end.

(** [l[0]] on a list. *)
Definition first {A} (l : list A) : outcome A :=
  match l with
  | x :: _ => Ret x
  | [] => Raise IndexError
  end.

(** [getattr(o, name)] on an instance of a class that defines no attribute
    of its own, for a name that is not one of the names that every object
    has (these begin and end with two underscores), and on [None], which has
    no other name. The built-in attributes of numbers, text and containers
    are not modelled: on these values every name is reported missing, and
    the statements below only rely on names that resolve, or on the names
    that are missing on an instance or on [None]. *)
Definition getattr (o : pyval) (name : string) : outcome pyval :=
  match o with
  | VObj _ attrs =>
      match assoc name attrs with
      | Some v => Ret v
      | None => Raise AttributeError
      end
  | _ => Raise AttributeError
  end.

(** ** hirezapi/utils.py: lookup helpers *)

Module Utils.

(** [s.replace('__', '.')]: non-overlapping occurrences, left to right. *)
Fixpoint replace_dunder (s : string) : string :=
  match s with
  | String "_" (String "_" r) => String "." (replace_dunder r)
  | String c r => String c (replace_dunder r)
  | EmptyString => EmptyString
  end.

(** [s.split('.')] *)
Fixpoint split_dots (s : string) : list string :=
  match s with
  | EmptyString => [EmptyString]
  | String "." r => EmptyString :: split_dots r
  | String c r =>
      match split_dots r with
      | w :: ws => String c w :: ws
      | [] => [String c EmptyString]
      end
  end.

(** [operator.attrgetter(path)]: the names of a dotted path are resolved one
    after the other. *)
Definition attrgetter (path : string) (o : pyval) : outcome pyval :=
  fold_left (fun acc name => x <~ acc ;; getattr x name)
            (split_dots path) (Ret o).

(** [dict.pop(key[, default])], called with the positional arguments
    [args]; the key is mandatory. *)
Definition dict_pop (d : list (string * pyval)) (args : list pyval)
  : outcome pyval :=
  match args with
  | [] => Raise TypeError      (* pop expected at least 1 argument, got 0 *)
  | [VStr k] =>
      match assoc k d with
      | Some v => Ret v
      | None => Raise KeyError
      end
  | [VList _] | [VDict _] => Raise TypeError   (* unhashable key *)
  | [_] => Raise KeyError
  | [VStr k; dflt] =>
      match assoc k d with
      | Some v => Ret v
      | None => Ret dflt
      end
  | [VList _; _] | [VDict _; _] => Raise TypeError
  | [_; dflt] => Ret dflt
  | _ => Raise TypeError       (* pop expected at most 2 arguments *)
  end.

(** [a, b = v] *)
Definition unpack2 (v : pyval) : outcome (pyval * pyval) :=
  match v with
  | VList [a; b] => Ret (a, b)
  | VList _ => Raise ValueError
  | VStr (String a (String b EmptyString)) =>
      Ret (VStr (String a EmptyString), VStr (String b EmptyString))
  | VStr _ => Raise ValueError
  | VDict [(a, _); (b, _)] => Ret (VStr a, VStr b)
  | VDict _ => Raise ValueError
  | _ => Raise TypeError
  end.

(** The loop of the one-attribute branch of [get]. *)
Fixpoint find_one (getter : pyval -> outcome pyval) (val : pyval)
         (iterable : list pyval) : outcome pyval :=
  match iterable with
  | [] => Ret VNone
  | element :: rest =>
      x <~ getter element ;;
      if py_eq x val then Ret element else find_one getter val rest
  end.

(** The inner [for ... else] of [get]: [false] when the loop breaks. *)
Fixpoint all_getters (getters : list ((pyval -> outcome pyval) * pyval))
         (element : pyval) : outcome bool :=
  match getters with
  | [] => Ret true
  | (getter, val) :: rest =>
      x <~ getter element ;;
      if negb (py_eq x val) then Ret false else all_getters rest element
  end.

Fixpoint find_all (getters : list ((pyval -> outcome pyval) * pyval))
         (iterable : list pyval) : outcome pyval :=
  match iterable with
  | [] => Ret VNone
  | element :: rest =>
      ok <~ all_getters getters element ;;
      if ok then Ret element else find_all getters rest
  end.

(** [get(iterable, **attrs)] *)
Definition get (iterable : list pyval) (attrs : list (string * pyval))
  : outcome pyval :=
  if Nat.eqb (List.length attrs) 1 then
    popped <~ dict_pop attrs [] ;;
    pair <~ unpack2 popped ;;
    let '(attr, val) := pair in
    match attr with
    | VStr attr => find_one (attrgetter (replace_dunder attr)) val iterable
    | _ => Raise AttributeError
    end
  else
    let getters :=
      map (fun '(attr, val) => (attrgetter (replace_dunder attr), val)) attrs in
    find_all getters iterable.

(** The body of [get_name_or_id(iterable, name_or_id)], with the function
    that the global name [get] is bound to when the body runs. *)
Definition get_name_or_id_calling
           (get : list pyval -> list (string * pyval) -> outcome pyval)
           (iterable : list pyval) (name_or_id : pyval) : outcome pyval :=
  if isinstance_int name_or_id then get iterable [("id", name_or_id)]
  else if isinstance_str name_or_id then get iterable [("name", name_or_id)]
  else Ret VNone.

(** [get_name_or_id(iterable, name_or_id)]: in the module, [get] is the
    function above. *)
Definition get_name_or_id (iterable : list pyval) (name_or_id : pyval)
  : outcome pyval :=
  get_name_or_id_calling get iterable name_or_id.

End Utils.

(** ** hirezapi/utils.py: ServerStatus *)

(** An instance of [ServerStatus] is its attribute dictionary. *)
Record ServerStatus : Type := { status_attrs : list (string * pyval) }.

(** [setattr(self, name, v)] on an instance of a class that defines no
    attribute of its own: the name has to be text; [__class__] only takes a
    class, [__weakref__] cannot be written, [__dict__] takes a dict, which
    becomes the attribute dictionary; any other name is stored in the
    attribute dictionary. *)
Definition setattr (self : ServerStatus) (name : pyval) (v : pyval)
  : outcome ServerStatus :=
  match name with
  | VStr n =>
      if String.eqb n "__class__" then Raise TypeError
      else if String.eqb n "__weakref__" then Raise AttributeError
      else if String.eqb n "__dict__" then
        match v with
        | VDict d => Ret {| status_attrs := d |}
        | _ => Raise TypeError
        end
      else Ret {| status_attrs := assoc_set n v (status_attrs self) |}
  | _ => Raise TypeError
  end.

(** The body of the loop of [ServerStatus.__init__]. *)
Definition ServerStatus_step (self : ServerStatus) (s : pyval)
  : outcome ServerStatus :=
  limited_access <~ getitem s "limited_access" ;;
  st <~ getitem s "status" ;;
  version <~ getitem s "version" ;;
  let up := py_eq st (VStr "UP") in
  let status :=
    VDict [("limited_access", limited_access); ("up", VBool up);
           ("version", version)] in
  environment <~ getitem s "environment" ;;
  if negb (py_eq environment (VStr "live")) then
    environment <~ getitem s "environment" ;;
    setattr self environment status
  else
    self <~ (if negb up then setattr self (VStr "all_up") (VBool false)
             else Ret self) ;;
    self <~ (if truthy limited_access
             then setattr self (VStr "limited_access") (VBool true)
             else Ret self) ;;
    platform <~ getitem s "platform" ;;
    setattr self platform status.

Fixpoint ServerStatus_loop (self : ServerStatus) (status_data : list pyval)
  : outcome ServerStatus :=
  match status_data with
  | [] => Ret self
  | s :: rest => self <~ ServerStatus_step self s ;; ServerStatus_loop self rest
  end.

(** [ServerStatus(status_data)] *)
Definition ServerStatus_init (status_data : list pyval) : outcome ServerStatus :=
  ServerStatus_loop
    {| status_attrs := [("all_up", VBool true); ("limited_access", VBool false)] |}
    status_data.

(** ** The collaborators of the API client *)

(** Modelled from the spec: the [Language] enumeration of enumerations.py,
    which is not part of the sources. A member is known by its [value], the
    language code that is sent to the service and that keys the cache. *)
Record Language : Type := { language_value : Z }.

(** Modelled from the spec: [ChampionInfo] of cache.py, the reference bundle.
    It is built as a whole from the language and the pair of responses
    (champion catalog, item catalog) and it is never changed afterwards. *)
Record ChampionInfo : Type := {
  info_language : Language;
  info_champions : list pyval;
  info_items : list pyval
}.

(** A remote call: the name of the operation and its parameters. *)
Definition call : Type := string * list pyval.

(** The transport behind [request] ([Endpoint.request] of endpoint.py, an
    external collaborator): what the service answers to a call, given the
    calls made so far. It returns a sequence of records or raises. *)
Class Endpoint : Type :=
  endpoint_reply : list call -> call -> outcome (list pyval).

(** Timestamps and durations are counted in microseconds, the resolution of
    [datetime] and [timedelta]. *)
Definition minutes (n : Z) : Z := n * 60000000.
Definition hours (n : Z) : Z := n * 3600000000.

(** ** hirezapi/api.py: the API client *)

(** The state of a [PaladinsAPI] instance: the cached server status with the
    time it expires at, the catalog cache, and the calls the instance has
    issued through [request] so far (the oldest first). *)
Record PaladinsAPI : Type := {
  server_status : option (ServerStatus * Z);
  cache : gmap Z (ChampionInfo * Z);
  requests : list call
}.

(** [PaladinsAPI(dev_id, api_key)] *)
Definition PaladinsAPI_init : PaladinsAPI :=
  {| server_status := None; cache := ∅; requests := [] |}.

(** A coroutine of the client. *)
Definition Coro (A : Type) : Type := PaladinsAPI -> outcome A * PaladinsAPI.

Definition ret {A} (a : A) : Coro A := fun api => (Ret a, api).

Definition raise {A} (e : exn) : Coro A := fun api => (Raise e, api).

Definition lift {A} (m : outcome A) : Coro A := fun api => (m, api).

Definition bind {A B} (m : Coro A) (k : A -> Coro B) : Coro B :=
  fun api =>
    match m api with
    | (Ret a, api') => k a api'
    | (Raise e, api') => (Raise e, api')
    end.

Notation "x <- m ;; k" := (bind m (fun x => k))
  (at level 100, m at next level, right associativity).

Definition set_server_status (v : option (ServerStatus * Z)) : Coro unit :=
  fun api =>
    (Ret tt, {| server_status := v; cache := cache api;
                requests := requests api |}).

Definition set_cache (c : gmap Z (ChampionInfo * Z)) : Coro unit :=
  fun api =>
    (Ret tt, {| server_status := server_status api; cache := c;
                requests := requests api |}).

(** [await self.request(method, args)]: the call is recorded and the
    transport decides the answer. *)
Definition request {endpoint : Endpoint} (method : string) (args : list pyval)
  : Coro (list pyval) :=
  fun api =>
    (endpoint_reply (requests api) (method, args),
     {| server_status := server_status api; cache := cache api;
        requests := requests api ++ [(method, args)] |}).

(** [bool(response)] for a sequence of records. *)
Definition nonempty {A} (l : list A) : bool :=
  match l with [] => false | _ => true end.

(** Modelled from the spec: [DataCache] of cache.py, which is not part of the
    sources: a mapping from the language code to a cache entry
    [(value, populated_at)]. An entry is stale when it is absent or when
    [now - populated_at >= 12 hours]; storing replaces the entry as a whole
    with the bundle built from both responses and the current time; reading
    uses [.get()] on the mapping. *)
Definition _needs_refreshing (now : Z) (c : gmap Z (ChampionInfo * Z))
           (language : Language) : bool :=
  match c !! language_value language with
  | None => true
  | Some (_, populated_at) => hours 12 <=? now - populated_at
  end.

Definition DataCache_setitem (now : Z) (c : gmap Z (ChampionInfo * Z))
           (language : Language) (data : list pyval * list pyval)
  : gmap Z (ChampionInfo * Z) :=
  <[language_value language :=
      ({| info_language := language; info_champions := fst data;
          info_items := snd data |}, now)]> c.

Definition DataCache_getitem (c : gmap Z (ChampionInfo * Z))
           (language : Language) : option ChampionInfo :=
  match c !! language_value language with
  | Some (info, _) => Some info
  | None => None
  end.

Section API.
Context {endpoint : Endpoint}.

(** [PaladinsAPI.get_server_status(force_refresh)], with [now] the reading of
    [datetime.utcnow()] at its first line. *)
Definition get_server_status (now : Z) (force_refresh : bool)
  : Coro (option ServerStatus) :=
  fun self =>
    (_ <- (if match server_status self with
              | None => true
              | Some (_, expires_at) => (expires_at <=? now) || force_refresh
              end
           then
             response <- request "gethirezserverstatus" [] ;;
             if nonempty response then
               status <- lift (ServerStatus_init response) ;;
               set_server_status (Some (status, now + minutes 1))
             else ret tt
           else ret tt) ;;
     fun self =>
       match server_status self with
       | Some (status, _) => ret (Some status) self
       | None => ret None self
       end) self.

(** [PaladinsAPI.get_champion_info(language, force_refresh)], with [now] the
    reading of the clock by the cache. [assert isinstance(language, Language)]
    holds by typing. *)
Definition get_champion_info (now : Z) (language : Language)
           (force_refresh : bool) : Coro (option ChampionInfo) :=
  fun self =>
    (_ <- (if _needs_refreshing now (cache self) language || force_refresh
           then
             champions_response <-
               request "getgods" [VInt (language_value language)] ;;
             items_response <-
               request "getitems" [VInt (language_value language)] ;;
             if nonempty champions_response && nonempty items_response then
               fun self =>
                 set_cache (DataCache_setitem now (cache self) language
                              (champions_response, items_response)) self
             else ret tt
           else ret tt) ;;
     fun self => ret (DataCache_getitem (cache self) language) self) self.

End API.

(** ** Conversions of the built-in [int] and [str] *)

(** Text is a sequence of code points below 256. The white space that
    [int] skips around a number: tab to carriage return, the space, and the
    two spaces above 127, [U+0085] and [U+00A0]. *)
Definition is_space (c : ascii) : bool :=
  let n := nat_of_ascii c in
  ((9 <=? n) && (n <=? 13) || (n =? 32) || (n =? 133) || (n =? 160))%nat.

Definition digit_of (c : ascii) : option Z :=
  let n := Z.of_nat (nat_of_ascii c) in
  if (48 <=? n) && (n <=? 57) then Some (n - 48) else None.

Fixpoint lstrip (l : list ascii) : list ascii :=
  match l with
  | c :: r => if is_space c then lstrip r else l
  | [] => []
  end.

Definition strip (l : list ascii) : list ascii :=
  rev (lstrip (rev (lstrip l))).

(** Decimal digits, single underscores allowed between two digits. *)
Fixpoint digits (acc : Z) (after_digit : bool) (l : list ascii) : option Z :=
  match l with
  | [] => if after_digit then Some acc else None
  | c :: r =>
      match digit_of c with
      | Some d => digits (10 * acc + d) true r
      | None =>
          if Ascii.eqb c "_" && after_digit then digits acc false r else None
      end
  end.

(** [sys.get_int_max_str_digits()], as the interpreter starts. *)
Definition int_max_str_digits : Z := 4300.

(** The number of digits of a text. *)
Definition count_digits (l : list ascii) : Z :=
  Z.of_nat (List.length
              (List.filter (fun c => match digit_of c with
                                     | Some _ => true
                                     | None => false
                                     end) l)).

(** [int(s)] for text: [None] stands for [ValueError], which is also raised
    for a number of more digits than the limit. *)
Definition int_of_str (s : string) : option Z :=
  let l := strip (list_ascii_of_string s) in
  if int_max_str_digits <? count_digits l then None
  else
    match l with
    | "+"%char :: r => digits 0 false r
    | "-"%char :: r => option_map Z.opp (digits 0 false r)
    | l => digits 0 false l
    end.

(** [int(v)] *)
Definition py_int (v : pyval) : outcome Z :=
  match v with
  | VInt z => Ret z
  | VBool b => Ret (Z.b2z b)
  | VStr s =>
      match int_of_str s with
      | Some z => Ret z
      | None => Raise ValueError
      end
  | _ => Raise TypeError
  end.

(** [s.isdecimal()] *)
Definition isdecimal (s : string) : bool :=
  match list_ascii_of_string s with
  | [] => false
  | l => forallb (fun c => match digit_of c with Some _ => true | None => false end) l
  end.

(** [for x in v] *)
Definition iterate (v : pyval) : outcome (list pyval) :=
  match v with
  | VList l => Ret l
  | VDict d => Ret (map (fun kv => VStr (fst kv)) d)
  | VStr s =>
      Ret (map (fun c => VStr (String c EmptyString)) (list_ascii_of_string s))
  | _ => Raise TypeError
  end.

(** ** arez/player.py *)

(** The enumerations and the field mappers that [player.py] imports and that
    are not part of the sources, taken as parameters: [X_get v] is
    [X.get(v)] ([None] when no member matches), [X_0] is [X(0)] and
    [X_bool m] is [bool(m)]. *)
Class Schema : Type := {
  Platform : Type;
  Platform_get : pyval -> option Platform;
  Platform_0 : Platform;
  Platform_bool : Platform -> bool;
  Region : Type;
  Region_get : pyval -> option Region;
  Region_0 : Region;
  Region_bool : Region -> bool;
  datetime : Type;
  convert_timestamp : pyval -> outcome datetime;
  Duration : Type;
  Duration_hours : pyval -> outcome Duration;
  Stats : Type;
  Stats_init : pyval -> outcome Stats;
  RankedStats : Type;
  RankedStats_init : string -> pyval -> outcome RankedStats
}.

Module Arez.
Section Players.
Context {schema : Schema}.

(** The attributes that [PartialPlayer.__init__] sets. *)
Record PartialPlayer : Type := {
  id : Z;
  name : pyval;
  platform : Platform
}.

(** An instance of [Player]: the inherited attributes and its own. *)
Record Player : Type := {
  partial : PartialPlayer;
  active_player : option PartialPlayer;
  merged_players : list PartialPlayer;
  created_at : datetime;
  last_login : datetime;
  level : pyval;
  playtime : Duration;
  champion_count : pyval;
  region : Region;
  total_achievements : pyval;
  total_exp : pyval;
  hz_gamer_tag : pyval;
  hz_player_name : pyval;
  casual : Stats;
  ranked_keyboard : RankedStats;
  ranked_controller : RankedStats
}.

(** The two classes of the module and their instances. *)
Inductive class : Type := PartialPlayerClass | PlayerClass.

Inductive instance : Type :=
| OfPartialPlayer (p : PartialPlayer)
| OfPlayer (p : Player).

(** Any Python object: an instance of one of the two classes, or a value of
    another type. *)
Inductive object : Type :=
| Instance (i : instance)
| Value (v : pyval).

(** [self.__class__] *)
Definition class_of (self : instance) : class :=
  match self with
  | OfPartialPlayer _ => PartialPlayerClass
  | OfPlayer _ => PlayerClass
  end.

(** [isinstance(o, c)]: [Player] is a subclass of [PartialPlayer]. *)
Definition isinstance (o : object) (c : class) : bool :=
  match o, c with
  | Instance _, PartialPlayerClass => true
  | Instance (OfPlayer _), PlayerClass => true
  | _, _ => false
  end.

(** The inherited attributes of an instance. *)
Definition attrs (self : instance) : PartialPlayer :=
  match self with
  | OfPartialPlayer p => p
  | OfPlayer p => partial p
  end.

(** [X.get(v) or X(0)] *)
Definition get_or_0 {X} (get : pyval -> option X) (truth : X -> bool)
           (zero : X) (v : pyval) : X :=
  match get v with
  | Some m => if truth m then m else zero
  | None => zero
  end.

(** [PartialPlayer(api, id=id, name=name, platform=platform)] *)
Definition PartialPlayer_init (id : pyval) (name : pyval) (platform : pyval)
  : outcome PartialPlayer :=
  id <~ py_int id ;;
  platform <~ match platform with
              | VStr s => if isdecimal s
                          then z <~ py_int platform ;; Ret (VInt z)
                          else Ret platform
              | _ => Ret platform
              end ;;
  Ret {| id := id; name := name;
         platform := get_or_0 Platform_get Platform_bool Platform_0 platform |}.

(** The loop over [player_data["MergedPlayers"]]. *)
Definition merged_player (p : pyval) : outcome PartialPlayer :=
  playerId <~ getitem p "playerId" ;;
  portalId <~ getitem p "portalId" ;;
  PartialPlayer_init playerId (VStr "") portalId.

(** [Player(api, player_data)] *)
Definition Player_init (player_data : pyval) : outcome Player :=
  Id <~ getitem player_data "Id" ;;
  Name <~ getitem player_data "Name" ;;
  Platform_ <~ getitem player_data "Platform" ;;
  self <~ PartialPlayer_init Id Name Platform_ ;;
  ActivePlayerId <~ getitem player_data "ActivePlayerId" ;;
  active_player <~
    (if negb (py_eq ActivePlayerId (VInt (id self))) then
       ActivePlayerId <~ getitem player_data "ActivePlayerId" ;;
       p <~ PartialPlayer_init ActivePlayerId (VStr "") (VInt 0) ;;
       Ret (Some p)
     else Ret None) ;;
  MergedPlayers <~ getitem player_data "MergedPlayers" ;;
  merged_players <~
    (if truthy MergedPlayers then
       MergedPlayers <~ getitem player_data "MergedPlayers" ;;
       ps <~ iterate MergedPlayers ;;
       omap merged_player ps
     else Ret []) ;;
  Created_Datetime <~ getitem player_data "Created_Datetime" ;;
  created_at <~ convert_timestamp Created_Datetime ;;
  Last_Login_Datetime <~ getitem player_data "Last_Login_Datetime" ;;
  last_login <~ convert_timestamp Last_Login_Datetime ;;
  level <~ getitem player_data "Level" ;;
  HoursPlayed <~ getitem player_data "HoursPlayed" ;;
  playtime <~ Duration_hours HoursPlayed ;;
  champion_count <~ getitem player_data "MasteryLevel" ;;
  Region_ <~ getitem player_data "Region" ;;
  let region := get_or_0 Region_get Region_bool Region_0 Region_ in
  total_achievements <~ getitem player_data "Total_Achievements" ;;
  total_exp <~ getitem player_data "Total_Worshippers" ;;
  hz_gamer_tag <~ getitem player_data "hz_gamer_tag" ;;
  hz_player_name <~ getitem player_data "hz_player_name" ;;
  casual <~ Stats_init player_data ;;
  RankedKBM <~ getitem player_data "RankedKBM" ;;
  ranked_keyboard <~ RankedStats_init "Keyboard" RankedKBM ;;
  RankedController <~ getitem player_data "RankedController" ;;
  ranked_controller <~ RankedStats_init "Controller" RankedController ;;
  Ret {| partial := self; active_player := active_player;
         merged_players := merged_players; created_at := created_at;
         last_login := last_login; level := level; playtime := playtime;
         champion_count := champion_count; region := region;
         total_achievements := total_achievements; total_exp := total_exp;
         hz_gamer_tag := hz_gamer_tag; hz_player_name := hz_player_name;
         casual := casual; ranked_keyboard := ranked_keyboard;
         ranked_controller := ranked_controller |}.

(** [PartialPlayer.private] *)
Definition private (self : instance) : bool :=
  id (attrs self) =? 0.

(** [PartialPlayer.__eq__(self, other)], which [Player] inherits. Past the
    assertion [other] is an instance, so that [other.id] is its attribute. *)
Definition __eq__ (self : instance) (other : object) : outcome bool :=
  if negb (isinstance other (class_of self)) then Raise AssertionError
  else
    match other with
    | Instance other =>
        Ret (negb (id (attrs self) =? 0) && negb (id (attrs other) =? 0)
             && (id (attrs self) =? id (attrs other)))
    | Value _ => Raise AttributeError
    end.

(** [c] is a subclass of [d] and another class. *)
Definition proper_subclass (c d : class) : bool :=
  match c, d with
  | PlayerClass, PartialPlayerClass => true
  | _, _ => false
  end.

(** The expression [a == b] for a player [a]. When the class of [b] is a
    proper subclass of the class of [a], the method of [b] is tried first,
    with the operands swapped; otherwise the method of [a] is called. The
    method returns a boolean or raises, it never returns [NotImplemented],
    so that no second method is tried. *)
Definition eq_op (a : instance) (b : object) : outcome bool :=
  match b with
  | Instance b' =>
      if proper_subclass (class_of b') (class_of a)
      then __eq__ b' (Instance a)
      else __eq__ a b
  | Value _ => __eq__ a b
  end.

(** The sub-entities built from the records of a response, whose classes
    ([PartialMatch] of match.py, [Loadout] of items.py) are not part of the
    sources, taken as parameters. *)
Class Entities : Type := {
  PartialMatch : Type;
  PartialMatch_init : instance -> Language -> pyval -> outcome PartialMatch;
  Loadout : Type;
  Loadout_init : instance -> Language -> pyval -> outcome Loadout
}.

Context {endpoint : Endpoint} {entities : Entities}.

(** [PartialPlayer._expand(self)] *)
Definition _expand (self : instance) : Coro (option Player) :=
  if private self then raise Private
  else
    response <- request "getplayer" [VInt (id (attrs self))] ;;
    if nonempty response then
      player_data <- lift (first response) ;;
      player <- lift (Player_init player_data) ;;
      ret (Some player)
    else ret None.

(** [PartialPlayer.get_friends(self)] *)
Definition get_friends (self : instance) : Coro (list PartialPlayer) :=
  if private self then raise Private
  else
    response <- request "getfriends" [VInt (id (attrs self))] ;;
    lift (omap (fun p =>
                  player_id <~ getitem p "player_id" ;;
                  name <~ getitem p "name" ;;
                  PartialPlayer_init player_id name (VInt 0))
               response).

(** [PartialPlayer.get_loadouts(self, language)], with [now] the reading of
    the clock by the catalog cache. *)
Definition get_loadouts (now : Z) (self : instance) (language : Language)
  : Coro (list Loadout) :=
  if private self then raise Private
  else
    _ <- get_champion_info now language false ;;
    response <-
      request "getplayerloadouts"
              [VInt (id (attrs self)); VInt (language_value language)] ;;
    empty <- lift (if negb (nonempty response) then Ret true
                   else
                     l <~ first response ;;
                     playerId <~ getitem l "playerId" ;;
                     Ret (negb (truthy playerId))) ;;
    if (empty : bool) then ret []
    else lift (omap (Loadout_init self language) response).

(** [PartialPlayer.get_match_history(self, language)] *)
Definition get_match_history (now : Z) (self : instance) (language : Language)
  : Coro (list PartialMatch) :=
  if private self then raise Private
  else
    _ <- get_champion_info now language false ;;
    response <- request "getmatchhistory" [VInt (id (attrs self))] ;;
    empty <- lift (if negb (nonempty response) then Ret true
                   else
                     m <~ first response ;;
                     ret_msg <~ getitem m "ret_msg" ;;
                     Ret (truthy ret_msg)) ;;
    if (empty : bool) then ret []
    else lift (omap (PartialMatch_init self language) response).

End Players.
End Arez.

(** ** arez/player.py: the remaining operations of a player *)

Module ArezMore.
Section Players.
Context {schema : Schema} {endpoint : Endpoint}.
Import Arez.

(** The sub-entities of [get_status] and [get_champion_stats], whose classes
    ([PlayerStatus] of status.py, [ChampionStats] of stats.py) are not part
    of the sources, taken as parameters. *)
Class StatusEntities : Type := {
  PlayerStatus : Type;
  PlayerStatus_init : instance -> pyval -> outcome PlayerStatus;
  ChampionStats : Type;
  ChampionStats_init : instance -> Language -> pyval -> outcome ChampionStats
}.

Context {status_entities : StatusEntities}.

(** [PartialPlayer.get_status(self)] *)
Definition get_status (self : instance) : Coro (option PlayerStatus) :=
  if private self then raise Private
  else
    response <- request "getplayerstatus" [VInt (id (attrs self))] ;;
    found <- lift (if nonempty response then
                     r <~ first response ;;
                     status <~ getitem r "status" ;;
                     Ret (negb (py_eq status (VInt 5)))
                   else Ret false) ;;
    if (found : bool) then
      r <- lift (first response) ;;
      status <- lift (PlayerStatus_init self r) ;;
      ret (Some status)
    else ret None.

(** [PartialPlayer.get_champion_stats(self, language)], with [now] the
    reading of the clock by the catalog cache. *)
Definition get_champion_stats (now : Z) (self : instance)
           (language : Language) : Coro (list ChampionStats) :=
  if private self then raise Private
  else
    _ <- get_champion_info now language false ;;
    response <- request "getgodranks" [VInt (id (attrs self))] ;;
    lift (omap (ChampionStats_init self language) response).

End Players.
End ArezMore.

(** ** hirezapi/api.py: the remaining operations of the client *)

(** [c.lower()] for a code point below 256: the capital letters are [A-Z]
    and [U+00C0-U+00DE] without the multiplication sign. *)
Definition lower_char (c : ascii) : ascii :=
  let n := nat_of_ascii c in
  if ((65 <=? n) && (n <=? 90)
      || (192 <=? n) && (n <=? 222) && negb (n =? 215))%nat
  then ascii_of_nat (n + 32) else c.

(** [s.lower()] *)
Fixpoint lower (s : string) : string :=
  match s with
  | EmptyString => EmptyString
  | String c r => String (lower_char c) (lower r)
  end.

(** The classes that api.py imports from the modules of its own package
    (player.py, match.py and enumerations.py of hirezapi) and that are not
    part of the sources, taken as parameters: the constructors, the [value]
    of a member of [Platform] and its truth value. *)
Class ApiEntities : Type := {
  ApiPlatform : Type;
  ApiPlatform_value : ApiPlatform -> Z;
  ApiPlatform_bool : ApiPlatform -> bool;
  ApiPartialPlayer : Type;
  ApiPartialPlayer_init : pyval -> outcome ApiPartialPlayer;
  ApiPlayer : Type;
  ApiPlayer_init : pyval -> outcome ApiPlayer;
  Match : Type;
  Match_init : Language -> list pyval -> outcome Match
}.

Section APIMore.
Context {endpoint : Endpoint} {api_entities : ApiEntities}.

(** [PaladinsAPI.get_player_from_id(player_id)] *)
Definition get_player_from_id (player_id : pyval) : outcome ApiPartialPlayer :=
  if negb (isinstance_int player_id) then Raise AssertionError
  else ApiPartialPlayer_init (VDict [("player_id", player_id)]).

(** [PaladinsAPI.get_player(player)] *)
Definition get_player (player : pyval) : Coro (option ApiPlayer) :=
  if negb (isinstance_int player || isinstance_str player)
  then raise AssertionError
  else
    player_list <- request "getplayer" [player] ;;
    if nonempty player_list then
      player_data <- lift (first player_list) ;;
      p <- lift (ApiPlayer_init player_data) ;;
      ret (Some p)
    else ret None.

(** The comprehension [[r for r in response if r["Name"].lower() ==
    player_name]] of [search_players]. *)
Fixpoint name_matches (player_name : string) (response : list pyval)
  : outcome (list pyval) :=
  match response with
  | [] => Ret []
  | r :: rest =>
      Name <~ getitem r "Name" ;;
      match Name with
      | VStr n =>
          kept <~ name_matches player_name rest ;;
          Ret (if String.eqb (lower n) player_name then r :: kept else kept)
      | _ => Raise AttributeError
      end
  end.

(** [PaladinsAPI.search_players(player_name, platform)];
    [assert isinstance(platform, (None.__class__, Platform))] holds by
    typing. *)
Definition search_players (player_name : pyval) (platform : option ApiPlatform)
  : Coro (list ApiPartialPlayer) :=
  match player_name with
  | VStr player_name =>
      let player_name := lower player_name in
      list_response <-
        (match platform with
         | Some p =>
             if ApiPlatform_bool p then
               if (ApiPlatform_value p <=? 5) || (ApiPlatform_value p =? 25)
               then request "getplayeridbyname" [VStr player_name]
               else request "getplayeridsbygamertag"
                            [VInt (ApiPlatform_value p); VStr player_name]
             else
               response <- request "searchplayers" [VStr player_name] ;;
               lift (name_matches player_name response)
         | None =>
             response <- request "searchplayers" [VStr player_name] ;;
             lift (name_matches player_name response)
         end) ;;
      lift (omap ApiPartialPlayer_init list_response)
  | _ => raise AssertionError
  end.

(** [PaladinsAPI.get_from_platform(platform_id, platform)] *)
Definition get_from_platform (platform_id : pyval) (platform : ApiPlatform)
  : Coro (option ApiPartialPlayer) :=
  if negb (isinstance_int platform_id) then raise AssertionError
  else
    response <- request "getplayeridbyportaluserid"
                        [VInt (ApiPlatform_value platform); platform_id] ;;
    if nonempty response then
      r <- lift (first response) ;;
      p <- lift (ApiPartialPlayer_init r) ;;
      ret (Some p)
    else ret None.

(** [PaladinsAPI.get_match(match_id, language)], with [now] the reading of
    the clock by the catalog cache. *)
Definition get_match (now : Z) (match_id : pyval) (language : Language)
  : Coro (option Match) :=
  if negb (isinstance_int match_id) then raise AssertionError
  else
    _ <- get_champion_info now language false ;;
    response <- request "getmatchdetails" [match_id] ;;
    if nonempty response then
      m <- lift (Match_init language response) ;;
      ret (Some m)
    else ret None.

End APIMore.

(** ** Concrete collaborators for the examples *)

Module Examples.

(** Enumerations whose members are the integers, field mappers that keep the
    value they are given. *)
Definition schema : Schema := {|
  Platform := Z;
  Platform_get := fun v => match v with VInt z => Some z | _ => None end;
  Platform_0 := 0;
  Platform_bool := fun _ => true;
  Region := Z;
  Region_get := fun v => match v with VInt z => Some z | _ => None end;
  Region_0 := 0;
  Region_bool := fun _ => true;
  datetime := pyval;
  convert_timestamp := fun v => Ret v;
  Duration := pyval;
  Duration_hours := fun v => Ret v;
  Stats := pyval;
  Stats_init := fun v => Ret v;
  RankedStats := string * pyval;
  RankedStats_init := fun kind v => Ret (kind, v)
|}.

Definition entities : @Arez.Entities schema := {|
  Arez.PartialMatch := pyval;
  Arez.PartialMatch_init := fun _ _ m => Ret m;
  Arez.Loadout := pyval;
  Arez.Loadout_init := fun _ _ l => Ret l
|}.

(** A transport that is down. *)
Definition down : Endpoint := fun _ _ => Raise TransportError.

(** A transport that answers every call with the same records. *)
Definition always (response : list pyval) : Endpoint :=
  fun _ _ => Ret response.

(** A transport that answers by the name of the operation. *)
Definition by_method (answers : list (string * outcome (list pyval)))
  : Endpoint :=
  fun _ c =>
    match assoc (fst c) answers with
    | Some r => r
    | None => Ret []
    end.

Definition english : Language := {| language_value := 1 |}.

Definition partial_player (n : Z) : @Arez.PartialPlayer schema :=
  {| Arez.id := n; Arez.name := VStr "Foo"; Arez.platform := (5 : @Platform schema) |}.

(** A record of the [getplayer] operation. *)
Definition player_record (n : Z) : pyval :=
  VDict [("Id", VInt n); ("Name", VStr "Foo"); ("Platform", VStr "5");
         ("ActivePlayerId", VInt n); ("MergedPlayers", VNone);
         ("Created_Datetime", VStr "1/2/2019 3:04:05 PM");
         ("Last_Login_Datetime", VStr "1/2/2020 3:04:05 PM");
         ("Level", VInt 30); ("HoursPlayed", VInt 100);
         ("MasteryLevel", VInt 12); ("Region", VInt 1);
         ("Total_Achievements", VInt 9); ("Total_Worshippers", VInt 1000);
         ("hz_gamer_tag", VNone); ("hz_player_name", VStr "Foo");
         ("RankedKBM", VDict []); ("RankedController", VDict [])].

(** The instance that [Player] builds from [player_record n]. *)
Definition full_player (n : Z) : @Arez.Player schema :=
  {| Arez.partial := partial_player n; Arez.active_player := None;
     Arez.merged_players := [];
     Arez.created_at := VStr "1/2/2019 3:04:05 PM";
     Arez.last_login := VStr "1/2/2020 3:04:05 PM";
     Arez.level := VInt 30; Arez.playtime := VInt 100;
     Arez.champion_count := VInt 12; Arez.region := (1 : @Region schema);
     Arez.total_achievements := VInt 9; Arez.total_exp := VInt 1000;
     Arez.hz_gamer_tag := VNone; Arez.hz_player_name := VStr "Foo";
     Arez.casual := player_record n;
     Arez.ranked_keyboard := ("Keyboard", VDict []);
     Arez.ranked_controller := ("Controller", VDict []) |}.

(** A record of the [gethirezserverstatus] operation. *)
Definition status_record : pyval :=
  VDict [("limited_access", VBool false); ("status", VStr "UP");
         ("version", VStr "3.1"); ("environment", VStr "live");
         ("platform", VStr "pc")].

(** Single records whose result message is not empty, as answers to
    [getfriends], [getplayerloadouts] and [getmatchhistory]. *)
Definition friends_message : pyval :=
  VDict [("ret_msg", VStr "No friends found"); ("player_id", VStr "0");
         ("name", VStr "")].

Definition loadouts_message : pyval :=
  VDict [("ret_msg", VStr "No loadouts found"); ("playerId", VInt 7)].

Definition loadouts_absent : pyval :=
  VDict [("ret_msg", VNone); ("playerId", VInt 0)].

Definition history_message : pyval :=
  VDict [("ret_msg", VStr "No match history"); ("playerId", VInt 0)].

(** A bundle that is already cached for English, populated at time 0. *)
Definition cached_info : ChampionInfo :=
  {| info_language := english;
     info_champions := [VDict [("id", VInt 2205)]];
     info_items := [VDict [("ItemId", VInt 11)]] |}.

Definition warm : PaladinsAPI :=
  {| server_status := None; cache := {[ 1 := (cached_info, 0) ]};
     requests := [] |}.

(** The catalog of champions arrives, the catalog of items does not. *)
Definition items_down : Endpoint :=
  by_method [("getgods", Ret [VDict [("id", VInt 2205)]]);
             ("getitems", Raise TransportError)].

Definition items_empty : Endpoint :=
  by_method [("getgods", Ret [VDict [("id", VInt 2205)]]);
             ("getitems", Ret [])].

(** The status built from [status_record]. *)
Definition status_up : ServerStatus :=
  {| status_attrs :=
       [("all_up", VBool true); ("limited_access", VBool false);
        ("pc", VDict [("limited_access", VBool false); ("up", VBool true);
                      ("version", VStr "3.1")])] |}.

End Examples.

(** ** Vocabulary of the statements *)

(** The client after it has issued [calls], its caches untouched. *)
Definition issued (api : PaladinsAPI) (calls : list call) : PaladinsAPI :=
  {| server_status := server_status api; cache := cache api;
     requests := requests api ++ calls |}.

(** A fetch succeeds when it returns at least one record. *)
Definition succeeded (reply : outcome (list pyval)) : bool :=
  match reply with
  | Ret response => nonempty response
  | Raise _ => false
  end.

(** The test that decides whether [get_server_status] refreshes. *)
Definition status_refresh_due (now : Z) (force_refresh : bool)
           (api : PaladinsAPI) : bool :=
  match server_status api with
  | None => true
  | Some (_, expires_at) => (expires_at <=? now) || force_refresh
  end.

(** The cached server status, if any. *)
Definition cached_status (api : PaladinsAPI) : option ServerStatus :=
  match server_status api with
  | Some (status, _) => Some status
  | None => None
  end.

Definition status_call : call := ("gethirezserverstatus", []).

Definition champions_call (language : Language) : call :=
  ("getgods", [VInt (language_value language)]).

Definition items_call (language : Language) : call :=
  ("getitems", [VInt (language_value language)]).

(** The getters that [get] builds from its keyword arguments. *)
Definition getters_of (attrs : list (string * pyval))
  : list ((pyval -> outcome pyval) * pyval) :=
  map (fun '(attr, val) => (Utils.attrgetter (Utils.replace_dunder attr), val))
      attrs.

(** The attribute path of a predicate resolves on [x]; the predicate holds
    on [x]: the path resolves to a value equal to the expected one. *)
Definition resolves (x : pyval) (p : string * pyval) : bool :=
  match Utils.attrgetter (Utils.replace_dunder (fst p)) x with
  | Ret _ => true
  | Raise _ => false
  end.

Definition holds (x : pyval) (p : string * pyval) : bool :=
  match Utils.attrgetter (Utils.replace_dunder (fst p)) x with
  | Ret y => py_eq y (snd p)
  | Raise _ => false
  end.

(** The resolution of the names of a path stops on an instance, or on
    [None], that does not have the next name. *)
Fixpoint lacks (names : list string) (o : pyval) : bool :=
  match names with
  | [] => false
  | n :: rest =>
      match o with
      | VObj _ attrs =>
          match assoc n attrs with
          | Some v => lacks rest v
          | None => true
          end
      | VNone => true
      | _ => false
      end
  end.

(** A keyword without a double underscore that does not end with an
    underscore. *)
Fixpoint plain (s : string) : bool :=
  match s with
  | EmptyString => true
  | String c r =>
      if Ascii.eqb c "_" then
        match r with
        | EmptyString => false
        | String c' _ => negb (Ascii.eqb c' "_") && plain r
        end
      else plain r
  end.

(** What [ServerStatus] reads in a record: whether it is of the live
    environment, up, and of limited access; the dict it stores for it; the
    attribute name it stores that dict under (the platform of a live record,
    the environment of another one), when that name is text. *)
Definition record_live (s : pyval) : bool :=
  match getitem s "environment" with
  | Ret environment => py_eq environment (VStr "live")
  | Raise _ => false
  end.

Definition record_up (s : pyval) : bool :=
  match getitem s "status" with
  | Ret status => py_eq status (VStr "UP")
  | Raise _ => false
  end.

Definition record_limited (s : pyval) : bool :=
  match getitem s "limited_access" with
  | Ret limited_access => truthy limited_access
  | Raise _ => false
  end.

Definition record_status (s : pyval) : pyval :=
  match getitem s "limited_access", getitem s "version" with
  | Ret limited_access, Ret version =>
      VDict [("limited_access", limited_access); ("up", VBool (record_up s));
             ("version", version)]
  | _, _ => VNone
  end.

Definition record_slot (s : pyval) : option string :=
  match getitem s (if record_live s then "platform" else "environment") with
  | Ret (VStr n) => Some n
  | _ => None
  end.

(** The names that [setattr] refuses. *)
Definition unwritable (n : string) : bool :=
  String.eqb n "__class__" || String.eqb n "__weakref__".

(** A record that [ServerStatus] can process: a dict with the keys that are
    read, and a text name that can be written to store its status under. *)
Definition status_record_ok (s : pyval) : bool :=
  match getitem s "limited_access", getitem s "status", getitem s "version",
        getitem s "environment", record_slot s with
  | Ret _, Ret _, Ret _, Ret _, Some n => negb (unwritable n)
  | _, _, _, _, _ => false
  end.

(** The name of a platform or of an environment is neither the name of one
    of the two flags of a server status nor [__dict__], the name of the
    attribute dictionary itself. *)
Definition not_a_flag (s : pyval) : bool :=
  match record_slot s with
  | Some n => negb (String.eqb n "all_up")
              && negb (String.eqb n "limited_access")
              && negb (String.eqb n "__dict__")
  | None => true
  end.

(** The attributes after the flags have been updated for a record. *)
Definition flagged (attrs : list (string * pyval)) (s : pyval)
  : list (string * pyval) :=
  if record_live s then
    let attrs := if negb (record_up s)
                 then assoc_set "all_up" (VBool false) attrs else attrs in
    if record_limited s
    then assoc_set "limited_access" (VBool true) attrs else attrs
  else attrs.

(** The attributes after the status of a record has been stored under the
    name [n]. *)
Definition stored (n : string) (s : pyval) (attrs : list (string * pyval))
  : list (string * pyval) :=
  if String.eqb n "__dict__" then
    match record_status s with
    | VDict d => d
    | _ => attrs
    end
  else assoc_set n (record_status s) attrs.

(** The name of a record equals the (lowered) name searched for, whatever
    the case of its letters. *)
Definition name_is (player_name : string) (r : pyval) : bool :=
  match getitem r "Name" with
  | Ret (VStr n) => String.eqb (lower n) player_name
  | _ => false
  end.

(** The record has a text [Name]. *)
Definition has_name (r : pyval) : bool :=
  match getitem r "Name" with
  | Ret (VStr _) => true
  | _ => false
  end.

(** ** More concrete inputs for the examples *)

Module MoreExamples.
Import Examples.

Definition status_entities : @ArezMore.StatusEntities schema := {|
  ArezMore.PlayerStatus := pyval;
  ArezMore.PlayerStatus_init := fun _ r => Ret r;
  ArezMore.ChampionStats := pyval;
  ArezMore.ChampionStats_init := fun _ _ s => Ret s
|}.

(** Platforms that are their value, the platform 0 being false. *)
Definition api_entities : ApiEntities := {|
  ApiPlatform := Z;
  ApiPlatform_value := fun z => z;
  ApiPlatform_bool := fun z => negb (z =? 0);
  ApiPartialPlayer := pyval;
  ApiPartialPlayer_init := fun p => Ret p;
  ApiPlayer := pyval;
  ApiPlayer_init := fun p => Ret p;
  Match := Language * list pyval;
  Match_init := fun language response => Ret (language, response)
|}.

(** Three champions, and a card that refers to its champion. *)
Definition androxus : pyval :=
  VObj 1 [("id", VInt 2205); ("name", VStr "Androxus"); ("role", VStr "Flank")].

Definition evie : pyval :=
  VObj 2 [("id", VInt 2094); ("name", VStr "Evie"); ("role", VStr "Flank")].

Definition fernando : pyval :=
  VObj 3 [("id", VInt 2071); ("name", VStr "Fernando");
          ("role", VStr "Front Line")].

Definition card : pyval := VObj 4 [("id", VInt 11); ("champion", evie)].

(** An object that has an identifier and no name. *)
Definition nameless : pyval := VObj 9 [("id", VInt 2094)].

(** Records of the server status: a test environment that is down, and a
    live platform that is down and of limited access. *)
Definition pts_down : pyval :=
  VDict [("limited_access", VBool false); ("status", VStr "DOWN");
         ("version", VStr "3.2"); ("environment", VStr "pts");
         ("platform", VStr "pc")].

Definition xbox_down : pyval :=
  VDict [("limited_access", VBool true); ("status", VStr "DOWN");
         ("version", VStr "3.1"); ("environment", VStr "live");
         ("platform", VStr "xbox")].

(** Records of [getfriends], [getplayerstatus], [getmatchhistory],
    [getplayerloadouts] and [searchplayers]. *)
Definition friend_record : pyval :=
  VDict [("ret_msg", VNone); ("player_id", VStr "42"); ("name", VStr "Bar")].

Definition offline_record : pyval :=
  VDict [("status", VInt 0); ("Match", VInt 0)].

Definition unknown_record : pyval :=
  VDict [("status", VInt 5); ("Match", VInt 0)].

Definition history_record : pyval :=
  VDict [("ret_msg", VNone); ("Match", VInt 9001)].

Definition loadout_record : pyval :=
  VDict [("ret_msg", VNone); ("playerId", VInt 3)].

Definition found_foo : pyval :=
  VDict [("Name", VStr "FOO"); ("player_id", VInt 7)].

Definition found_foobar : pyval :=
  VDict [("Name", VStr "foobar"); ("player_id", VInt 8)].

Definition catalog_record : pyval := VDict [("id", VInt 2205)].

End MoreExamples.

(** ** Lookup helpers *)

(** The branch of [get] for zero or several predicates does what the
    one-attribute branch is meant to do: it returns the first element on
    which no getter differs from its value, and [None] when there is none. *)
Lemma find_all_first_match getters (before : list pyval) (element : pyval)
      (after : list pyval) :
  Forall (fun x => Utils.all_getters getters x = Ret false) before ->
  Utils.all_getters getters element = Ret true ->
  Utils.find_all getters (before ++ element :: after)%list = Ret element.
Proof.
  intros Hbefore Helement.
  induction Hbefore as [|x before Hx _ IH]; cbn [app Utils.find_all].
  - rewrite Helement. reflexivity.
  - rewrite Hx. exact IH.
Qed.

Lemma find_all_no_match getters (iterable : list pyval) :
  Forall (fun x => Utils.all_getters getters x = Ret false) iterable ->
  Utils.find_all getters iterable = Ret VNone.
Proof.
  induction 1 as [|x iterable Hx _ IH]; cbn [Utils.find_all].
  - reflexivity.
  - rewrite Hx. exact IH.
Qed.

(** C4 (the code departs from it). Whatever the sequence and whatever the
    single attribute-path/value predicate, [get] does not search: its
    one-attribute branch calls [attrs.pop()] without a key, which raises
    [TypeError] before any element is examined. *)
Theorem get_single_attribute_raises (iterable : list pyval) (attr : string)
        (val : pyval) :
  Utils.get iterable [(attr, val)] = Raise TypeError.
Proof. reflexivity. Qed.

(** The failing input of C4: the element matches the only predicate, yet it
    is not returned. *)
Example get_single_attribute_example :
  Utils.get [VObj 0 [("id", VInt 1)]] [("id", VInt 1)] = Raise TypeError.
Proof. reflexivity. Qed.

(** With two predicates the search does return the first element that
    satisfies both. *)
Example get_two_attributes_example :
  Utils.get [VObj 0 [("id", VInt 1); ("name", VStr "a")];
             VObj 1 [("id", VInt 1); ("name", VStr "b")];
             VObj 2 [("id", VInt 1); ("name", VStr "b")]]
            [("id", VInt 1); ("name", VStr "b")]
  = Ret (VObj 1 [("id", VInt 1); ("name", VStr "b")]).
Proof. reflexivity. Qed.

(** C6, as stated, fails: a key that is neither an integer nor text makes
    [get_name_or_id] return [None]; nothing is raised. *)
Lemma get_name_or_id_other_key_returns :
  Utils.get_name_or_id [VObj 0 [("id", VInt 1)]] VNone = Ret VNone
  /\ Utils.get_name_or_id [VObj 0 [("id", VInt 1)]] (VList [VInt 1]) = Ret VNone.
Proof. split; reflexivity. Qed.

(** C6 (amended). [get_name_or_id] dispatches on the type of the key.
    Whatever function the name [get] is bound to: for an integer key (a
    boolean is an integer) it calls that function on the sequence with the
    single predicate [id = key] and hands on its outcome; for a text key it
    calls it with the single predicate [name = key]; for a key of any other
    type it returns [None] and calls nothing. In the module the function is
    [get]. *)
Theorem get_name_or_id_dispatch
        (get : list pyval -> list (string * pyval) -> outcome pyval)
        (iterable : list pyval) (key : pyval) :
  (isinstance_int key = true ->
   Utils.get_name_or_id_calling get iterable key = get iterable [("id", key)])
  /\ (isinstance_str key = true ->
      Utils.get_name_or_id_calling get iterable key
      = get iterable [("name", key)])
  /\ (isinstance_int key = false -> isinstance_str key = false ->
      Utils.get_name_or_id_calling get iterable key = Ret VNone)
  /\ Utils.get_name_or_id iterable key
     = Utils.get_name_or_id_calling Utils.get iterable key.
Proof.
  unfold Utils.get_name_or_id, Utils.get_name_or_id_calling.
  repeat split.
  - intros ->. reflexivity.
  - intros Hs. destruct key; try discriminate Hs. reflexivity.
  - intros -> ->. reflexivity.
Qed.

Lemma get_name_or_id_dispatch_witness :
  let by_all := fun iterable attrs =>
                  Utils.find_all (getters_of attrs) iterable in
  let bar := VObj 0 [("id", VInt 42); ("name", VStr "Bar")] in
  let foo := VObj 1 [("id", VInt 7); ("name", VStr "Foo")] in
  Utils.get_name_or_id_calling by_all [bar; foo] (VInt 42) = Ret bar
  /\ Utils.get_name_or_id_calling by_all [bar; foo] (VStr "Foo") = Ret foo
  /\ Utils.get_name_or_id_calling by_all [bar; foo] (VDict []) = Ret VNone.
Proof.
  intros by_all bar foo.
  split; [| split].
  - exact (eq_trans
             (proj1 (get_name_or_id_dispatch by_all [bar; foo] (VInt 42))
                    eq_refl)
             eq_refl).
  - exact (eq_trans
             (proj1 (proj2 (get_name_or_id_dispatch by_all [bar; foo]
                                                     (VStr "Foo")))
                    eq_refl)
             eq_refl).
  - exact (proj1 (proj2 (proj2 (get_name_or_id_dispatch by_all [bar; foo]
                                                        (VDict []))))
                 eq_refl eq_refl).
Defined.

(** ** Players *)

Section PlayerProperties.
Context {schema : Schema}.
Import Arez.

(** C5, amended. Let [a] and [b] be two players of the same class (two
    plain partial players, or two full players). Then [a == b] returns a
    boolean; when both identifiers are non-zero it is [True] exactly when the
    identifiers are equal; when either identifier is zero it is [False], and
    so is [a == a] for an [a] whose identifier is zero. *)
Theorem eq_by_identifier (a b : instance) :
  class_of a = class_of b ->
  (exists r, eq_op a (Instance b) = Ret r)
  /\ (id (attrs a) <> 0 -> id (attrs b) <> 0 ->
      (eq_op a (Instance b) = Ret true <-> id (attrs a) = id (attrs b)))
  /\ (id (attrs a) = 0 \/ id (attrs b) = 0 -> eq_op a (Instance b) = Ret false)
  /\ (id (attrs a) = 0 -> eq_op a (Instance a) = Ret false).
Proof.
  intros Hc.
  assert (Hself : forall x, isinstance (Instance x) (class_of x) = true)
    by (intros x; destruct x; reflexivity).
  assert (Hno : forall x, proper_subclass (class_of x) (class_of x) = false)
    by (intros x; destruct x; reflexivity).
  assert (Hab : eq_op a (Instance b)
                = Ret (negb (id (attrs a) =? 0) && negb (id (attrs b) =? 0)
                       && (id (attrs a) =? id (attrs b)))).
  { unfold eq_op. rewrite <- Hc, Hno. unfold __eq__.
    rewrite Hc, Hself. reflexivity. }
  assert (Haa : eq_op a (Instance a)
                = Ret (negb (id (attrs a) =? 0) && negb (id (attrs a) =? 0)
                       && (id (attrs a) =? id (attrs a)))).
  { unfold eq_op. rewrite Hno. unfold __eq__. rewrite Hself. reflexivity. }
  rewrite Hab, Haa.
  repeat split.
  - eexists. reflexivity.
  - intros Heq. injection Heq as Heq.
    apply andb_prop in Heq as [_ Heq]. lia.
  - intros Heq. f_equal.
    destruct (Z.eqb_spec (id (attrs a)) 0); [contradiction|].
    destruct (Z.eqb_spec (id (attrs b)) 0); [contradiction|].
    cbn. lia.
  - intros [Hz | Hz]; rewrite Hz.
    + reflexivity.
    + cbn. rewrite andb_false_r. reflexivity.
  - intros Hz. rewrite Hz. reflexivity.
Qed.

(** C10. [p == v] asserts that [v] is an instance of the class of [p]: for
    every [v] that is not, the comparison raises [AssertionError]; so does a
    [Player] on the left compared with a plain [PartialPlayer] on the right,
    whatever their identifiers. *)
Theorem eq_asserts_class (p : instance) (v : object) :
  (isinstance v (class_of p) = false -> __eq__ p v = Raise AssertionError)
  /\ (forall (full : Player) (plain : PartialPlayer),
        __eq__ (OfPlayer full) (Instance (OfPartialPlayer plain))
        = Raise AssertionError).
Proof.
  split.
  - intros Hi. unfold __eq__. rewrite Hi. reflexivity.
  - intros full plain. reflexivity.
Qed.

Context {endpoint : Endpoint} {entities : Entities}.

(** C3. Expanding a player whose identifier is zero raises [Private] and
    leaves the client as it was: no call is issued. *)
Theorem expand_private (self : instance) (api : PaladinsAPI) :
  id (attrs self) = 0 ->
  _expand self api = (Raise Private, api)
  /\ requests (snd (_expand self api)) = requests api.
Proof.
  intros Hz. unfold _expand, private. rewrite Hz. split; reflexivity.
Qed.

(** The identifier of an instance is the integer value of the [id] it is
    built with; for a [Player] that is the field [Id] of its record. *)
Lemma PartialPlayer_init_id (id_ name_ platform_ : pyval)
      (player : PartialPlayer) :
  PartialPlayer_init id_ name_ platform_ = Ret player ->
  py_int id_ = Ret (id player).
Proof.
  unfold PartialPlayer_init.
  destruct (py_int id_) as [z|]; [cbn [obind] | discriminate].
  destruct (match platform_ with VStr _ => _ | _ => _ end);
    [cbn [obind] | discriminate].
  intros [= <-]. reflexivity.
Qed.

Lemma Player_init_id (player_data : pyval) (player : Player) :
  Player_init player_data = Ret player ->
  exists Id, getitem player_data "Id" = Ret Id
             /\ py_int Id = Ret (id (partial player)).
Proof.
  unfold Player_init. intros Hinit.
  repeat match type of Hinit with
         | obind ?m _ = Ret _ =>
             let v := fresh "v" in
             let E := fresh "E" in
             destruct m as [v|] eqn:E;
             [cbn [obind] in Hinit | discriminate Hinit]
         end.
  injection Hinit as <-. cbn [partial].
  eauto using PartialPlayer_init_id.
Qed.

(** C9. For a player with a non-zero identifier, [_expand] issues the
    [getplayer] call; when the transport returns no record the result is
    [None], returned and not raised; when it returns records the result is
    what [Player] builds from the first of them, an instance that carries
    the identifier of that record. *)
Theorem expand_found_or_none (self : instance) (api : PaladinsAPI)
        (response : list pyval) :
  id (attrs self) <> 0 ->
  endpoint_reply (requests api) ("getplayer", [VInt (id (attrs self))])
  = Ret response ->
  let api' := issued api [("getplayer", [VInt (id (attrs self))])] in
  (response = [] -> _expand self api = (Ret None, api'))
  /\ (forall player_data rest,
        response = player_data :: rest ->
        _expand self api
        = (player <~ Player_init player_data ;; Ret (Some player), api')
        /\ forall player,
             Player_init player_data = Ret player ->
             _expand self api = (Ret (Some player), api')
             /\ exists Id, getitem player_data "Id" = Ret Id
                           /\ py_int Id = Ret (id (partial player))).
Proof.
  intros Hnz Hreply api'.
  assert (Hp : private self = false) by (unfold private; lia).
  unfold _expand. rewrite Hp.
  unfold bind, request. rewrite Hreply.
  split.
  - intros ->. reflexivity.
  - intros player_data rest ->. cbn.
    unfold bind, lift. split.
    + destruct (Player_init player_data); reflexivity.
    + intros player Hinit. rewrite Hinit.
      split; [reflexivity | exact (Player_init_id _ _ Hinit)].
Qed.

End PlayerProperties.

(** ** The caches of the API client *)

Section CacheProperties.
Context {endpoint : Endpoint}.

(** Without a refresh neither operation issues a call. *)
Lemma get_server_status_fresh (now : Z) (api : PaladinsAPI) :
  status_refresh_due now false api = false ->
  get_server_status now false api = (Ret (cached_status api), api).
Proof.
  unfold status_refresh_due, get_server_status, cached_status, bind, ret.
  destruct (server_status api) as [[status expires_at]|] eqn:Hst;
    [|discriminate].
  intros ->. rewrite Hst. reflexivity.
Qed.

(** What a refresh of the server status does, by the reply of the
    transport. *)
Lemma get_server_status_refresh (now : Z) (force_refresh : bool)
      (api : PaladinsAPI) :
  status_refresh_due now force_refresh api = true ->
  get_server_status now force_refresh api =
  match endpoint_reply (requests api) status_call with
  | Raise e => (Raise e, issued api [status_call])
  | Ret [] => (Ret (cached_status api), issued api [status_call])
  | Ret response =>
      match ServerStatus_init response with
      | Ret status =>
          (Ret (Some status),
           {| server_status := Some (status, now + minutes 1);
              cache := cache api;
              requests := requests api ++ [status_call] |})
      | Raise e => (Raise e, issued api [status_call])
      end
  end.
Proof.
  unfold status_refresh_due, get_server_status, cached_status.
  intros Hdue. rewrite Hdue.
  unfold bind, request, lift, ret, set_server_status, status_call, issued.
  destruct (endpoint_reply (requests api) ("gethirezserverstatus", []))
    as [[|record response]|e].
  - cbn. destruct (server_status api) as [[status expires_at]|]; reflexivity.
  - remember (ServerStatus_init (record :: response)) as built.
    cbn. destruct built; reflexivity.
  - reflexivity.
Qed.

(** What a refresh of the catalog does, by the replies of the transport. *)
Lemma get_champion_info_refresh (now : Z) (language : Language)
      (force_refresh : bool) (api : PaladinsAPI) :
  _needs_refreshing now (cache api) language || force_refresh = true ->
  get_champion_info now language force_refresh api =
  match endpoint_reply (requests api) (champions_call language) with
  | Raise e => (Raise e, issued api [champions_call language])
  | Ret champions_response =>
      let calls := [champions_call language; items_call language] in
      match endpoint_reply (requests api ++ [champions_call language])
                           (items_call language) with
      | Raise e => (Raise e, issued api calls)
      | Ret items_response =>
          if nonempty champions_response && nonempty items_response then
            (Ret (Some {| info_language := language;
                          info_champions := champions_response;
                          info_items := items_response |}),
             {| server_status := server_status api;
                cache := DataCache_setitem now (cache api) language
                           (champions_response, items_response);
                requests := requests api ++ calls |})
          else (Ret (DataCache_getitem (cache api) language), issued api calls)
      end
  end.
Proof.
  unfold get_champion_info. intros ->.
  unfold bind, request, ret, set_cache, champions_call, items_call, issued.
  cbn [requests cache server_status].
  destruct (endpoint_reply (requests api) _) as [champions_response|e];
    [|reflexivity].
  destruct (endpoint_reply (requests api ++ _) _) as [items_response|e];
    rewrite <- ?app_assoc; [|reflexivity].
  destruct (nonempty champions_response && nonempty items_response);
    cbn; [|reflexivity].
  unfold DataCache_getitem, DataCache_setitem. cbn.
  rewrite lookup_insert_eq. reflexivity.
Qed.

(** C1. When a refresh of the catalog of a language is attempted and at least
    one of the two fetches fails or returns no record, the whole cache is
    left as it was before the call, and the call either raises the failure of
    the transport or returns the value that was cached before (absent if
    there was none): no bundle is built. *)
Theorem get_champion_info_atomic (now : Z) (language : Language)
        (force_refresh : bool) (api : PaladinsAPI) :
  let champions := endpoint_reply (requests api) (champions_call language) in
  let items := endpoint_reply (requests api ++ [champions_call language])
                              (items_call language) in
  let result := get_champion_info now language force_refresh api in
  _needs_refreshing now (cache api) language || force_refresh = true ->
  succeeded champions = false \/ succeeded items = false ->
  cache (snd result) = cache api
  /\ cache (snd result) !! language_value language
     = cache api !! language_value language
  /\ fst result
     = (_ <~ champions ;; _ <~ items ;;
        Ret (DataCache_getitem (cache api) language)).
Proof.
  intros champions items result Hdue Hfail. subst result.
  rewrite get_champion_info_refresh by exact Hdue.
  fold champions. fold items.
  destruct champions as [champions_response|e]; [|cbn; auto].
  destruct items as [items_response|e]; [|cbn; auto].
  assert (Hboth : nonempty champions_response && nonempty items_response
                  = false).
  { cbn in Hfail. destruct Hfail as [-> | ->];
      [reflexivity | apply andb_false_r]. }
  cbn zeta. rewrite Hboth. cbn. auto.
Qed.

Lemma get_server_status_idle (now : Z) (force_refresh : bool)
      (api : PaladinsAPI) :
  status_refresh_due now force_refresh api = false ->
  get_server_status now force_refresh api = (Ret (cached_status api), api).
Proof.
  unfold status_refresh_due, get_server_status, cached_status, bind, ret.
  destruct (server_status api) as [[status expires_at]|] eqn:Hst;
    [|discriminate].
  intros ->. rewrite Hst. reflexivity.
Qed.

Lemma get_champion_info_idle (now : Z) (language : Language)
      (force_refresh : bool) (api : PaladinsAPI) :
  _needs_refreshing now (cache api) language || force_refresh = false ->
  get_champion_info now language force_refresh api
  = (Ret (DataCache_getitem (cache api) language), api).
Proof.
  unfold get_champion_info, bind, ret. intros ->. reflexivity.
Qed.

(** C2, amended. A refresh whose fetch returns no record returns the value
    cached before (absent if there is none) and leaves the caches as they
    were; a refresh whose fetch raises hands the exception of the transport
    on to the caller, the caches again left as they were. This holds for the
    server status (one fetch) and for the catalog (either of its two
    fetches). These are the only exceptions of the catalog; the server
    status raises one more, the exception that [ServerStatus] raises on a
    response that is not empty, the cached status left as it was. Every
    other outcome of the two operations is a value or [None]. *)
Theorem refresh_failure_outcome (now : Z) (language : Language)
        (force_refresh : bool) (api : PaladinsAPI) :
  (status_refresh_due now force_refresh api = true ->
   let reply := endpoint_reply (requests api) status_call in
   (reply = Ret [] ->
    get_server_status now force_refresh api
    = (Ret (cached_status api), issued api [status_call]))
   /\ (forall e, reply = Raise e ->
       get_server_status now force_refresh api
       = (Raise e, issued api [status_call])))
  /\ (_needs_refreshing now (cache api) language || force_refresh = true ->
      let champions := endpoint_reply (requests api) (champions_call language) in
      let items := endpoint_reply (requests api ++ [champions_call language])
                                  (items_call language) in
      let result := get_champion_info now language force_refresh api in
      (forall champions_response items_response,
         champions = Ret champions_response -> items = Ret items_response ->
         champions_response = [] \/ items_response = [] ->
         fst result = Ret (DataCache_getitem (cache api) language)
         /\ cache (snd result) = cache api)
      /\ (forall e, champions = Raise e ->
          fst result = Raise e /\ cache (snd result) = cache api)
      /\ (forall champions_response e,
          champions = Ret champions_response -> items = Raise e ->
          fst result = Raise e /\ cache (snd result) = cache api))
  /\ (forall e,
        fst (get_server_status now force_refresh api) = Raise e ->
        status_refresh_due now force_refresh api = true
        /\ (endpoint_reply (requests api) status_call = Raise e
            \/ exists response,
                 endpoint_reply (requests api) status_call = Ret response
                 /\ response <> []
                 /\ ServerStatus_init response = Raise e)
        /\ server_status (snd (get_server_status now force_refresh api))
           = server_status api)
  /\ (forall e,
        fst (get_champion_info now language force_refresh api) = Raise e ->
        _needs_refreshing now (cache api) language || force_refresh = true
        /\ (endpoint_reply (requests api) (champions_call language) = Raise e
            \/ exists champions_response,
                 endpoint_reply (requests api) (champions_call language)
                 = Ret champions_response
                 /\ endpoint_reply (requests api ++ [champions_call language])
                                   (items_call language) = Raise e)
        /\ cache (snd (get_champion_info now language force_refresh api))
           = cache api).
Proof.
  split; [|split; [|split]].
  - intros Hdue reply. subst reply.
    rewrite get_server_status_refresh by exact Hdue.
    split.
    + intros ->. reflexivity.
    + intros e ->. reflexivity.
  - intros Hdue champions items result. subst result.
    rewrite get_champion_info_refresh by exact Hdue.
    fold champions. fold items.
    split; [|split].
    + intros champions_response items_response -> -> Hempty. cbn zeta.
      assert (Hboth : nonempty champions_response && nonempty items_response
                      = false)
        by (destruct Hempty as [-> | ->]; [reflexivity | apply andb_false_r]).
      rewrite Hboth. split; reflexivity.
    + intros e ->. split; reflexivity.
    + intros champions_response e -> ->. split; reflexivity.
  - intros e.
    destruct (status_refresh_due now force_refresh api) eqn:Hdue.
    + rewrite get_server_status_refresh by exact Hdue.
      destruct (endpoint_reply (requests api) status_call)
        as [[|record response]|e0].
      * discriminate.
      * destruct (ServerStatus_init (record :: response)) as [status|e1]
          eqn:Hinit; [discriminate|].
        intros [= <-]. split; [reflexivity|]. split; [|reflexivity].
        right. exists (record :: response).
        split; [reflexivity | split; [discriminate | exact Hinit]].
      * intros [= <-]. split; [reflexivity|].
        split; [left; reflexivity | reflexivity].
    + rewrite get_server_status_idle by exact Hdue. discriminate.
  - intros e.
    destruct (_needs_refreshing now (cache api) language || force_refresh)
      eqn:Hdue.
    + rewrite get_champion_info_refresh by exact Hdue.
      destruct (endpoint_reply (requests api) (champions_call language))
        as [champions_response|e0].
      * cbv zeta.
        destruct (endpoint_reply (requests api ++ [champions_call language])
                                 (items_call language))
          as [items_response|e1].
        -- destruct (nonempty champions_response && nonempty items_response);
             discriminate.
        -- intros [= <-]. split; [reflexivity|]. split; [|reflexivity].
           right. exists champions_response. split; reflexivity.
      * intros [= <-]. split; [reflexivity|].
        split; [left; reflexivity | reflexivity].
    + rewrite get_champion_info_idle by exact Hdue. discriminate.
Qed.

(** C7. A call of [get_server_status] at time [t0] that fetches a non-empty
    response stores the status built from it together with [t0] plus one
    minute, and returns it; every later call without [force_refresh] at a
    time strictly before [t0] plus one minute returns that same status and
    leaves the client as it is: no call is issued. *)
Theorem server_status_stable (t0 : Z) (force_refresh : bool)
        (api : PaladinsAPI) (response : list pyval) (status : ServerStatus) :
  status_refresh_due t0 force_refresh api = true ->
  endpoint_reply (requests api) status_call = Ret response ->
  nonempty response = true ->
  ServerStatus_init response = Ret status ->
  let api1 := snd (get_server_status t0 force_refresh api) in
  fst (get_server_status t0 force_refresh api) = Ret (Some status)
  /\ server_status api1 = Some (status, t0 + minutes 1)
  /\ requests api1 = (requests api ++ [status_call])%list
  /\ (forall t, t < t0 + minutes 1 ->
      get_server_status t false api1 = (Ret (Some status), api1)).
Proof.
  intros Hdue Hreply Hne Hinit api1. subst api1.
  rewrite get_server_status_refresh by exact Hdue.
  rewrite Hreply. destruct response as [|s response]; [discriminate|].
  rewrite Hinit. cbn [fst snd server_status requests].
  repeat split.
  intros t Ht. rewrite get_server_status_fresh.
  - reflexivity.
  - unfold status_refresh_due. cbn. rewrite orb_false_r. lia.
Qed.

End CacheProperties.

(** ** The operations derived from a player *)

Section DerivedOperations.
Context {schema : Schema} {endpoint : Endpoint} {entities : Arez.Entities}.
Import Arez.

(** C8, amended. Once the catalog has been resolved without an exception,
    [get_match_history] returns the empty list when the first record of the
    response has a non-empty result message ([ret_msg]), whatever follows
    it; [get_loadouts] returns the empty list when the player identifier
    ([playerId]) of the first record is empty or zero, and does not look at
    a result message. *)
Theorem empty_result_signal (now : Z) (self : instance) (language : Language)
        (api api1 : PaladinsAPI) (info : option ChampionInfo) :
  private self = false ->
  get_champion_info now language false api = (Ret info, api1) ->
  (forall m rest ret_msg,
     endpoint_reply (requests api1)
                    ("getmatchhistory", [VInt (id (attrs self))])
     = Ret (m :: rest) ->
     getitem m "ret_msg" = Ret ret_msg -> truthy ret_msg = true ->
     fst (get_match_history now self language api) = Ret [])
  /\ (forall l rest playerId,
        endpoint_reply (requests api1)
                       ("getplayerloadouts",
                        [VInt (id (attrs self));
                         VInt (language_value language)])
        = Ret (l :: rest) ->
        getitem l "playerId" = Ret playerId -> truthy playerId = false ->
        fst (get_loadouts now self language api) = Ret []).
Proof.
  intros Hp Hinfo. split.
  - intros m rest ret_msg Hreply Hmsg Htruthy.
    unfold get_match_history. rewrite Hp.
    unfold bind at 1. rewrite Hinfo.
    unfold bind, request, lift. rewrite Hreply. cbn.
    rewrite Hmsg. cbn. rewrite Htruthy. reflexivity.
  - intros l rest playerId Hreply Hid Hfalsy.
    unfold get_loadouts. rewrite Hp.
    unfold bind at 1. rewrite Hinfo.
    unfold bind, request, lift. rewrite Hreply. cbn.
    rewrite Hid. cbn. rewrite Hfalsy. reflexivity.
Qed.

End DerivedOperations.

(** ** The statements at concrete inputs *)

Module Witnesses.
Import Examples Arez.

(** C8, as stated, fails: a single record with a non-empty result message
    makes [get_friends] build a player from it, and makes [get_loadouts]
    build a loadout from it when its player identifier is not zero. *)
Lemma message_record_builds_entities :
  fst (get_friends (schema := schema)
         (endpoint := by_method [("getfriends", Ret [friends_message])])
         (OfPartialPlayer (partial_player 3)) PaladinsAPI_init)
  = Ret [{| id := 0; name := VStr ""; platform := (0 : @Platform schema) |}]
  /\ fst (get_loadouts (entities := entities)
            (endpoint := by_method
                           [("getplayerloadouts", Ret [loadouts_message])])
            0 (OfPartialPlayer (partial_player 3)) english PaladinsAPI_init)
     = Ret [loadouts_message].
Proof. split; reflexivity. Qed.

Lemma empty_result_signal_witness :
  fst (get_match_history (entities := entities)
         (endpoint := by_method [("getmatchhistory", Ret [history_message])])
         0 (OfPartialPlayer (partial_player 3)) english PaladinsAPI_init)
  = Ret []
  /\ fst (get_loadouts (entities := entities)
            (endpoint := by_method
                           [("getplayerloadouts", Ret [loadouts_absent])])
            0 (OfPartialPlayer (partial_player 3)) english PaladinsAPI_init)
     = Ret [].
Proof.
  split.
  - refine (proj1 (empty_result_signal
                     (endpoint := by_method
                        [("getmatchhistory", Ret [history_message])])
                     0 (OfPartialPlayer (partial_player 3)) english
                     PaladinsAPI_init _ None eq_refl eq_refl)
                  history_message [] (VStr "No match history")
                  eq_refl eq_refl eq_refl).
  - refine (proj2 (empty_result_signal
                     (endpoint := by_method
                        [("getplayerloadouts", Ret [loadouts_absent])])
                     0 (OfPartialPlayer (partial_player 3)) english
                     PaladinsAPI_init _ None eq_refl eq_refl)
                  loadouts_absent [] (VInt 0) eq_refl eq_refl eq_refl).
Defined.

(** C5, as stated, fails: a plain [PartialPlayer] and a [Player] with the
    same non-zero identifier do not compare equal, in either order, and two
    such players with the identifier zero do not compare unequal: all four
    comparisons raise, the method of the [Player] being the one that runs. *)
Lemma eq_player_with_partial_raises :
  eq_op (OfPlayer (full_player 5)) (Instance (OfPartialPlayer (partial_player 5)))
  = Raise AssertionError
  /\ eq_op (OfPartialPlayer (partial_player 5)) (Instance (OfPlayer (full_player 5)))
     = Raise AssertionError
  /\ eq_op (OfPlayer (full_player 0)) (Instance (OfPartialPlayer (partial_player 0)))
     = Raise AssertionError
  /\ eq_op (OfPartialPlayer (partial_player 0)) (Instance (OfPlayer (full_player 0)))
     = Raise AssertionError.
Proof. repeat split; reflexivity. Qed.

Lemma eq_by_identifier_witness :
  (eq_op (OfPlayer (full_player 5)) (Instance (OfPlayer (full_player 5)))
   = Ret true <-> 5 = 5)
  /\ (eq_op (OfPartialPlayer (partial_player 5))
            (Instance (OfPartialPlayer (partial_player 7)))
      = Ret true <-> 5 = 7)
  /\ eq_op (OfPartialPlayer (partial_player 0))
           (Instance (OfPartialPlayer (partial_player 0))) = Ret false.
Proof.
  split; [|split].
  - refine (proj1 (proj2 (eq_by_identifier
                            (OfPlayer (full_player 5))
                            (OfPlayer (full_player 5)) eq_refl)) _ _);
      cbn; lia.
  - refine (proj1 (proj2 (eq_by_identifier
                            (OfPartialPlayer (partial_player 5))
                            (OfPartialPlayer (partial_player 7)) eq_refl)) _ _);
      cbn; lia.
  - exact (proj2 (proj2 (proj2 (eq_by_identifier
                                  (OfPartialPlayer (partial_player 0))
                                  (OfPartialPlayer (partial_player 0))
                                  eq_refl))) eq_refl).
Defined.

Lemma eq_asserts_class_witness :
  __eq__ (OfPartialPlayer (partial_player 5)) (Value (VInt 5))
  = Raise AssertionError
  /\ __eq__ (OfPlayer (full_player 5)) (Instance (OfPartialPlayer (partial_player 7)))
     = Raise AssertionError.
Proof.
  split.
  - exact (proj1 (eq_asserts_class (OfPartialPlayer (partial_player 5))
                                   (Value (VInt 5))) eq_refl).
  - exact (proj1 (eq_asserts_class (OfPlayer (full_player 5))
                    (Instance (OfPartialPlayer (partial_player 7)))) eq_refl).
Defined.

Lemma expand_private_witness :
  _expand (endpoint := always [player_record 0])
          (OfPartialPlayer (partial_player 0)) PaladinsAPI_init
  = (Raise Private, PaladinsAPI_init).
Proof.
  exact (proj1 (expand_private (endpoint := always [player_record 0])
                  (OfPartialPlayer (partial_player 0)) PaladinsAPI_init
                  eq_refl)).
Defined.

Lemma expand_found_or_none_witness :
  fst (_expand (endpoint := always [])
               (OfPartialPlayer (partial_player 5)) PaladinsAPI_init)
  = Ret None
  /\ fst (_expand (endpoint := always [player_record 5])
                  (OfPartialPlayer (partial_player 5)) PaladinsAPI_init)
     = Ret (Some (full_player 5)).
Proof.
  split.
  - rewrite (proj1 (expand_found_or_none (endpoint := always [])
                      (OfPartialPlayer (partial_player 5)) PaladinsAPI_init []
                      ltac:(cbn; lia) eq_refl) eq_refl).
    reflexivity.
  - rewrite (proj1 (proj2 (proj2 (expand_found_or_none
                                    (endpoint := always [player_record 5])
                                    (OfPartialPlayer (partial_player 5))
                                    PaladinsAPI_init [player_record 5]
                                    ltac:(cbn; lia) eq_refl)
                                 (player_record 5) [] eq_refl)
                          (full_player 5) eq_refl)).
    reflexivity.
Defined.

(** C2, as stated, fails: when the transport raises, both operations raise
    to their caller, also when a value is cached; and the server status
    raises as well on a record that [ServerStatus] cannot process. *)
Lemma refresh_raises_transport_error :
  fst (get_server_status (endpoint := down) 0 false PaladinsAPI_init)
  = Raise TransportError
  /\ fst (get_champion_info (endpoint := down) 0 english false PaladinsAPI_init)
     = Raise TransportError
  /\ fst (get_champion_info (endpoint := down) 0 english true warm)
     = Raise TransportError
  /\ fst (get_server_status (endpoint := always [VDict []]) 0 false
                            PaladinsAPI_init)
     = Raise KeyError.
Proof. repeat split; reflexivity. Qed.

Lemma get_champion_info_atomic_witness :
  cache (snd (get_champion_info (endpoint := items_empty) 0 english true warm))
  = cache warm
  /\ fst (get_champion_info (endpoint := items_empty) 0 english true warm)
     = Ret (Some cached_info)
  /\ cache (snd (get_champion_info (endpoint := items_down) 0 english true warm))
     = cache warm.
Proof.
  pose proof (get_champion_info_atomic (endpoint := items_empty)
                0 english true warm) as Hempty.
  pose proof (get_champion_info_atomic (endpoint := items_down)
                0 english true warm) as Hdown.
  cbn zeta in Hempty, Hdown.
  destruct Hempty as (Hcache & _ & Hresult);
    [apply orb_true_r | right; reflexivity |].
  destruct Hdown as (Hcache' & _ & _);
    [apply orb_true_r | right; reflexivity |].
  split; [exact Hcache | split; [| exact Hcache']].
  rewrite Hresult. reflexivity.
Defined.

Lemma refresh_failure_outcome_witness :
  get_server_status (endpoint := always []) 0 false PaladinsAPI_init
  = (Ret None, issued PaladinsAPI_init [status_call])
  /\ fst (get_champion_info (endpoint := items_down) 0 english true warm)
     = Raise TransportError
  /\ server_status (snd (get_server_status (endpoint := always [VDict []])
                                           0 false PaladinsAPI_init))
     = None.
Proof.
  split; [|split].
  - exact (proj1 (proj1 (refresh_failure_outcome (endpoint := always [])
                           0 english false PaladinsAPI_init) eq_refl)
                 eq_refl).
  - pose proof (proj1 (proj2 (refresh_failure_outcome
                                (endpoint := items_down)
                                0 english true warm))) as Hinfo.
    cbn zeta in Hinfo.
    destruct (Hinfo (orb_true_r _)) as (_ & _ & Hitems).
    exact (proj1 (Hitems [VDict [("id", VInt 2205)]] TransportError
                         eq_refl eq_refl)).
  - exact (proj2 (proj2 (proj1 (proj2 (proj2 (refresh_failure_outcome
                                                (endpoint := always [VDict []])
                                                0 english false
                                                PaladinsAPI_init)))
                               KeyError eq_refl))).
Defined.

Lemma server_status_stable_witness :
  fst (get_server_status (endpoint := always [status_record]) 0 false
                         PaladinsAPI_init)
  = Ret (Some status_up)
  /\ let api1 := snd (get_server_status (endpoint := always [status_record])
                                        0 false PaladinsAPI_init) in
     get_server_status (endpoint := always [status_record])
                       (minutes 1 - 1) false api1
     = (Ret (Some status_up), api1).
Proof.
  pose proof (server_status_stable (endpoint := always [status_record])
                0 false PaladinsAPI_init [status_record] status_up
                eq_refl eq_refl eq_refl eq_refl) as Hstable.
  cbn zeta in Hstable. destruct Hstable as (Hfirst & _ & _ & Hlater).
  split; [exact Hfirst |].
  cbn zeta. apply Hlater. reflexivity.
Defined.

End Witnesses.

(** ** More on the lookup helpers *)

Section LookupMore.

Lemma split_dots_unfold (c : ascii) (r : string) :
  Utils.split_dots (String c r) =
  if Ascii.eqb c "." then EmptyString :: Utils.split_dots r
  else match Utils.split_dots r with
       | w :: ws => String c w :: ws
       | [] => [String c EmptyString]
       end.
Proof. destruct c as [[] [] [] [] [] [] [] []]; reflexivity. Qed.

Lemma split_dots_cons (s : string) :
  exists w ws, Utils.split_dots s = w :: ws.
Proof.
  induction s as [|c r [w [ws IH]]]; [cbn; eauto|].
  rewrite split_dots_unfold, IH. destruct (Ascii.eqb c "."); eauto.
Qed.

Lemma split_dots_app (a b : string) :
  Utils.split_dots (a ++ String "." b)
  = (Utils.split_dots a ++ Utils.split_dots b)%list.
Proof.
  induction a as [|c r IH]; [reflexivity|].
  change (String c r ++ String "." b)
    with (String c (r ++ String "." b)).
  rewrite !split_dots_unfold, IH.
  destruct (Ascii.eqb c "."); [reflexivity|].
  destruct (split_dots_cons r) as (w & ws & ->). reflexivity.
Qed.

Lemma replace_dunder_unfold (c : ascii) (r : string) :
  Utils.replace_dunder (String c r) =
  if Ascii.eqb c "_" then
    match r with
    | String c' r' =>
        if Ascii.eqb c' "_" then String "." (Utils.replace_dunder r')
        else String c (Utils.replace_dunder r)
    | EmptyString => String c EmptyString
    end
  else String c (Utils.replace_dunder r).
Proof.
  destruct c as [[] [] [] [] [] [] [] []]; try reflexivity.
  destruct r as [|c' r']; [reflexivity|].
  destruct c' as [[] [] [] [] [] [] [] []]; reflexivity.
Qed.

Lemma resolve_raise (names : list string) (e : exn) :
  fold_left (fun acc name => x <~ acc ;; getattr x name) names (Raise e)
  = Raise e.
Proof. induction names as [|n names IH]; [reflexivity | exact IH]. Qed.

(** A dotted path resolves its left part, then its right part on the result;
    so does the keyword [a__b] whose left part is [plain]: it reaches the
    attribute path [b] of the attribute [a]. *)
Theorem attrgetter_nested (a b : string) (o : pyval) :
  Utils.attrgetter (a ++ String "." b) o
  = (x <~ Utils.attrgetter a o ;; Utils.attrgetter b x)
  /\ (plain a = true ->
      Utils.attrgetter (Utils.replace_dunder (a ++ String "_" (String "_" b))) o
      = (x <~ Utils.attrgetter a o ;;
         Utils.attrgetter (Utils.replace_dunder b) x)).
Proof.
  assert (Hdot : forall a b o,
             Utils.attrgetter (a ++ String "." b) o
             = (x <~ Utils.attrgetter a o ;; Utils.attrgetter b x)).
  { clear. intros a b o. unfold Utils.attrgetter.
    rewrite split_dots_app, fold_left_app.
    destruct (fold_left _ (Utils.split_dots a) (Ret o)) as [x|e];
      [reflexivity | apply resolve_raise]. }
  split; [apply Hdot|].
  intros Hplain.
  assert (Hrep : Utils.replace_dunder (a ++ String "_" (String "_" b))
                 = a ++ String "." (Utils.replace_dunder b)).
  { clear Hdot. induction a as [|c r IH]; [reflexivity|].
    change (String c r ++ String "_" (String "_" b))
      with (String c (r ++ String "_" (String "_" b))).
    change (String c r ++ String "." (Utils.replace_dunder b))
      with (String c (r ++ String "." (Utils.replace_dunder b))).
    cbn [plain] in Hplain. rewrite replace_dunder_unfold.
    destruct (Ascii.eqb c "_") eqn:Hc.
    - destruct r as [|c' r']; [discriminate Hplain|].
      apply andb_prop in Hplain as [Hc' Hr].
      change (String c' r' ++ String "_" (String "_" b))
        with (String c' (r' ++ String "_" (String "_" b))) in *.
      cbv beta iota.
      apply negb_true_iff in Hc'. rewrite Hc'. f_equal. exact (IH Hr).
    - f_equal. exact (IH Hplain). }
  rewrite Hrep. apply Hdot.
Qed.

Lemma all_getters_resolved (attrs : list (string * pyval)) (x : pyval) :
  forallb (resolves x) attrs = true ->
  Utils.all_getters (getters_of attrs) x = Ret (forallb (holds x) attrs).
Proof.
  induction attrs as [|[attr val] attrs IH]; [reflexivity|].
  cbn [forallb getters_of map Utils.all_getters]. unfold resolves, holds at 1.
  cbn [fst snd].
  destruct (Utils.attrgetter (Utils.replace_dunder attr) x) as [y|e];
    [|discriminate].
  cbn [obind andb]. intros Hres.
  destruct (py_eq y val); cbn [negb andb]; [exact (IH Hres) | reflexivity].
Qed.

Lemma get_many (iterable : list pyval) (attrs : list (string * pyval)) :
  List.length attrs <> 1%nat ->
  Utils.get iterable attrs = Utils.find_all (getters_of attrs) iterable.
Proof.
  intros Hlen. unfold Utils.get.
  destruct (Nat.eqb_spec (List.length attrs) 1); [contradiction | reflexivity].
Qed.

(** Called with no predicate or with several, [get] returns the first
    element on which every predicate holds, provided the attribute paths
    resolve on the elements before it; what follows that element is not
    examined. *)
Theorem get_first_match (before after : list pyval) (element : pyval)
        (attrs : list (string * pyval)) :
  List.length attrs <> 1%nat ->
  Forall (fun x => forallb (resolves x) attrs = true
                   /\ forallb (holds x) attrs = false) before ->
  forallb (holds element) attrs = true ->
  Utils.get (before ++ element :: after)%list attrs = Ret element.
Proof.
  intros Hlen Hbefore Helement. rewrite get_many by exact Hlen.
  assert (Hres : forallb (resolves element) attrs = true).
  { clear -Helement. induction attrs as [|p attrs IH]; [reflexivity|].
    cbn [forallb] in *. apply andb_prop in Helement as [Hp Hr].
    rewrite (IH Hr), andb_true_r. unfold holds in Hp. unfold resolves.
    destruct (Utils.attrgetter _ element); [reflexivity | discriminate]. }
  induction Hbefore as [|x before [Hx Hno] _ IH]; cbn [app Utils.find_all].
  - rewrite all_getters_resolved, Helement by exact Hres. reflexivity.
  - rewrite all_getters_resolved, Hno by exact Hx. exact IH.
Qed.

(** Called with no predicate or with several, [get] returns [None] when the
    attribute paths resolve on every element and no element satisfies all
    the predicates. *)
Theorem get_no_match (iterable : list pyval) (attrs : list (string * pyval)) :
  List.length attrs <> 1%nat ->
  Forall (fun x => forallb (resolves x) attrs = true
                   /\ forallb (holds x) attrs = false) iterable ->
  Utils.get iterable attrs = Ret VNone.
Proof.
  intros Hlen Hall. rewrite get_many by exact Hlen.
  induction Hall as [|x iterable [Hx Hno] _ IH]; cbn [Utils.find_all].
  - reflexivity.
  - rewrite all_getters_resolved, Hno by exact Hx. exact IH.
Qed.

(** Whatever [get] returns is [None] or an element of the sequence. *)
Theorem get_returns_member (iterable : list pyval)
        (attrs : list (string * pyval)) (v : pyval) :
  Utils.get iterable attrs = Ret v -> v = VNone \/ In v iterable.
Proof.
  unfold Utils.get. destruct (Nat.eqb (List.length attrs) 1); [discriminate|].
  cbv zeta. fold (getters_of attrs).
  induction iterable as [|x iterable IH]; cbn [Utils.find_all].
  - intros [= <-]. left. reflexivity.
  - destruct (Utils.all_getters (getters_of attrs) x) as [[|]|e];
      cbn [obind]; [| |discriminate].
    + intros [= <-]. right. left. reflexivity.
    + intros Hrest. destruct (IH Hrest) as [-> | Hin];
        [left; reflexivity | right; right; exact Hin].
Qed.

Lemma lacks_raises (names : list string) (o : pyval) :
  lacks names o = true ->
  fold_left (fun acc name => x <~ acc ;; getattr x name) names (Ret o)
  = Raise AttributeError.
Proof.
  revert o. induction names as [|n names IH]; intros o; [discriminate|].
  cbn [lacks fold_left obind]. unfold getattr at 2.
  destruct o as [| | | | | |addr attrs]; try discriminate.
  - intros _. apply resolve_raise.
  - destruct (assoc n attrs) as [v|]; [apply IH | intros _; apply resolve_raise].
Qed.

(** An element that the search reaches and on which an attribute path stops
    on an instance, or on [None], that does not have the next name, the
    predicates before that one holding, is not skipped: the search stops
    with [AttributeError]. *)
Theorem get_unresolved_raises (before after : list pyval) (element : pyval)
        (ok rest : list (string * pyval)) (p : string * pyval) :
  List.length (ok ++ p :: rest) <> 1%nat ->
  Forall (fun x => forallb (resolves x) (ok ++ p :: rest) = true
                   /\ forallb (holds x) (ok ++ p :: rest) = false) before ->
  forallb (holds element) ok = true ->
  lacks (Utils.split_dots (Utils.replace_dunder (fst p))) element = true ->
  Utils.get (before ++ element :: after)%list (ok ++ p :: rest)%list
  = Raise AttributeError.
Proof.
  intros Hlen Hbefore Hok Hp. rewrite get_many by exact Hlen.
  assert (Helement : Utils.all_getters (getters_of (ok ++ p :: rest)) element
                     = Raise AttributeError).
  { clear -Hok Hp. induction ok as [|[attr val] ok IH].
    - destruct p as [attr val]. cbn [app getters_of map Utils.all_getters].
      cbn [fst] in Hp. unfold Utils.attrgetter at 1.
      rewrite (lacks_raises _ _ Hp). reflexivity.
    - cbn [app getters_of map Utils.all_getters forallb] in *.
      apply andb_prop in Hok as [Hhold Hok]. unfold holds in Hhold.
      cbn [fst snd] in Hhold.
      destruct (Utils.attrgetter (Utils.replace_dunder attr) element)
        as [y|e]; [|discriminate].
      cbn [obind]. rewrite Hhold. cbn [negb]. exact (IH Hok). }
  induction Hbefore as [|x before [Hx Hno] _ IH]; cbn [app Utils.find_all].
  - rewrite Helement. reflexivity.
  - rewrite all_getters_resolved, Hno by exact Hx. exact IH.
Qed.

(** Since [get] cannot search by a single predicate, [get_name_or_id] raises
    [TypeError] for every integer key and every text key, whatever the
    sequence. *)
Theorem get_name_or_id_raises (iterable : list pyval) (key : pyval) :
  isinstance_int key || isinstance_str key = true ->
  Utils.get_name_or_id iterable key = Raise TypeError.
Proof.
  unfold Utils.get_name_or_id, Utils.get_name_or_id_calling.
  destruct (isinstance_int key); [reflexivity|].
  destruct (isinstance_str key); [reflexivity | discriminate].
Qed.

End LookupMore.

(** ** The server status *)

Section ServerStatusProperties.

Lemma assoc_set_eq {A} (k : string) (v : A) (d : list (string * A)) :
  assoc k (assoc_set k v d) = Some v.
Proof.
  induction d as [|[k' v'] d IH]; cbn [assoc_set assoc].
  - rewrite String.eqb_refl. reflexivity.
  - destruct (String.eqb k k') eqn:Hk; cbn [assoc].
    + rewrite String.eqb_refl. reflexivity.
    + rewrite Hk. exact IH.
Qed.

Lemma assoc_set_ne {A} (k k' : string) (v : A) (d : list (string * A)) :
  String.eqb k k' = false ->
  assoc k' (assoc_set k v d) = assoc k' d.
Proof.
  intros Hne. induction d as [|[k0 v0] d IH]; cbn [assoc_set assoc].
  - rewrite String.eqb_sym, Hne. reflexivity.
  - destruct (String.eqb k k0) eqn:Hk; cbn [assoc].
    + apply String.eqb_eq in Hk as <-.
      rewrite String.eqb_sym, Hne. reflexivity.
    + rewrite IH. reflexivity.
Qed.

Lemma setattr_stores (self : ServerStatus) (n : string)
      (d : list (string * pyval)) :
  unwritable n = false ->
  setattr self (VStr n) (VDict d)
  = Ret {| status_attrs := if String.eqb n "__dict__" then d
                           else assoc_set n (VDict d) (status_attrs self) |}.
Proof.
  unfold unwritable, setattr. intros Hw.
  apply orb_false_elim in Hw as [-> ->].
  destruct (String.eqb n "__dict__"); reflexivity.
Qed.

Lemma setattr_refuses (self : ServerStatus) (n : string) (v : pyval) :
  unwritable n = true -> exists e, setattr self (VStr n) v = Raise e.
Proof.
  unfold unwritable, setattr. intros Hw.
  destruct (String.eqb n "__class__"); [eauto|].
  cbn [orb] in Hw. rewrite Hw. eauto.
Qed.

Lemma setattr_flag (self : ServerStatus) (v : pyval) :
  setattr self (VStr "all_up") v
  = Ret {| status_attrs := assoc_set "all_up" v (status_attrs self) |}
  /\ setattr self (VStr "limited_access") v
     = Ret {| status_attrs :=
                assoc_set "limited_access" v (status_attrs self) |}.
Proof. split; reflexivity. Qed.

Lemma ServerStatus_step_ok (self : ServerStatus) (s : pyval) :
  status_record_ok s = true ->
  exists n, record_slot s = Some n
            /\ ServerStatus_step self s
               = Ret {| status_attrs :=
                          stored n s (flagged (status_attrs self) s) |}.
Proof.
  unfold status_record_ok, record_slot, stored, record_status, flagged,
    record_live, record_up, record_limited, ServerStatus_step.
  destruct (getitem s "limited_access") as [la|]; [|discriminate].
  destruct (getitem s "status") as [st|]; [|discriminate].
  destruct (getitem s "version") as [ver|]; [|discriminate].
  destruct (getitem s "environment") as [env|] eqn:Henv; [|discriminate].
  cbn [obind].
  destruct (py_eq env (VStr "live")) eqn:Hlive; cbn [negb].
  - destruct (getitem s "platform") as [[| | |n| | |]|]; try discriminate.
    intros Hw. apply negb_true_iff in Hw.
    exists n. split; [reflexivity|].
    destruct (py_eq st (VStr "UP")), (truthy la); cbn [negb obind];
      rewrite ?(proj1 (setattr_flag _ _)); cbn [obind];
      rewrite ?(proj2 (setattr_flag _ _)); cbn [obind];
      rewrite setattr_stores by exact Hw; reflexivity.
  - rewrite Henv. destruct env as [| | |n| | |]; try discriminate.
    intros Hw. apply negb_true_iff in Hw.
    exists n. split; [reflexivity|].
    cbn [obind]. rewrite setattr_stores by exact Hw. reflexivity.
Qed.

Lemma ServerStatus_step_ret (self self' : ServerStatus) (s : pyval) :
  ServerStatus_step self s = Ret self' -> status_record_ok s = true.
Proof.
  unfold status_record_ok, record_slot, record_live, ServerStatus_step.
  destruct (getitem s "limited_access") as [la|]; [|discriminate].
  destruct (getitem s "status") as [st|]; [|discriminate].
  destruct (getitem s "version") as [ver|]; [|discriminate].
  destruct (getitem s "environment") as [env|] eqn:Henv; [|discriminate].
  cbn [obind].
  destruct (py_eq env (VStr "live")) eqn:Hlive; cbn [negb].
  - destruct (if negb (py_eq st (VStr "UP")) then _ else _) as [a1|];
      [cbn [obind] | discriminate].
    destruct (if truthy la then _ else _) as [a2|];
      [cbn [obind] | discriminate].
    destruct (getitem s "platform") as [[| | |n| | |]|]; try discriminate.
    cbn [obind]. intros Hset. apply negb_true_iff.
    destruct (unwritable n) eqn:Hw; [|reflexivity].
    destruct (setattr_refuses a2 n
                (VDict [("limited_access", la);
                        ("up", VBool (py_eq st (VStr "UP")));
                        ("version", ver)]) Hw) as [e He].
    rewrite He in Hset. discriminate Hset.
  - rewrite Henv. cbn [obind].
    destruct env as [| | |n| | |]; try discriminate.
    intros Hset. apply negb_true_iff.
    destruct (unwritable n) eqn:Hw; [|reflexivity].
    destruct (setattr_refuses self n
                (VDict [("limited_access", la);
                        ("up", VBool (py_eq st (VStr "UP")));
                        ("version", ver)]) Hw) as [e He].
    rewrite He in Hset. discriminate Hset.
Qed.

(** A record whose platform is named [__dict__] replaces the attributes of
    the instance by the entries of its status; one named [__class__] makes
    the constructor raise. *)
Example ServerStatus_special_names :
  ServerStatus_init
    [VDict [("limited_access", VBool false); ("status", VStr "UP");
            ("version", VStr "3.1"); ("environment", VStr "live");
            ("platform", VStr "__dict__")]]
  = Ret {| status_attrs := [("limited_access", VBool false);
                            ("up", VBool true); ("version", VStr "3.1")] |}
  /\ ServerStatus_init
       [VDict [("limited_access", VBool false); ("status", VStr "UP");
               ("version", VStr "3.1"); ("environment", VStr "__class__")]]
     = Raise TypeError.
Proof. split; reflexivity. Qed.

(** [ServerStatus(status_data)] returns an instance exactly when every
    record is a dict that has the keys [limited_access], [status], [version]
    and [environment] and a text name to be stored under, its [platform]
    when the environment is [live] and its [environment] otherwise, that is
    neither [__class__] nor [__weakref__]. *)
Theorem ServerStatus_init_succeeds (status_data : list pyval) :
  (exists status, ServerStatus_init status_data = Ret status)
  <-> forallb status_record_ok status_data = true.
Proof.
  unfold ServerStatus_init.
  generalize {| status_attrs :=
                  [("all_up", VBool true); ("limited_access", VBool false)] |}.
  induction status_data as [|s rest IH]; intros self;
    cbn [ServerStatus_loop forallb].
  - split; [reflexivity | eauto].
  - split.
    + intros [status Hloop].
      destruct (ServerStatus_step self s) as [self'|] eqn:Hstep;
        [|discriminate Hloop].
      rewrite (ServerStatus_step_ret _ _ _ Hstep). cbn [obind andb] in *.
      apply (IH self'). eauto.
    + intros Hok. apply andb_prop in Hok as [Hs Hrest].
      destruct (ServerStatus_step_ok self s Hs) as (n & _ & ->).
      cbn [obind]. apply IH. exact Hrest.
Qed.

Lemma ServerStatus_loop_flags (status_data : list pyval)
      (self status : ServerStatus) (all_up limited : bool) :
  forallb not_a_flag status_data = true ->
  assoc "all_up" (status_attrs self) = Some (VBool all_up) ->
  assoc "limited_access" (status_attrs self) = Some (VBool limited) ->
  ServerStatus_loop self status_data = Ret status ->
  assoc "all_up" (status_attrs status)
  = Some (VBool (all_up && forallb (fun s => negb (record_live s) || record_up s)
                                   status_data))
  /\ assoc "limited_access" (status_attrs status)
     = Some (VBool (limited || existsb (fun s => record_live s && record_limited s)
                                       status_data)).
Proof.
  revert self all_up limited.
  induction status_data as [|s rest IH]; intros self all_up limited;
    cbn [ServerStatus_loop forallb existsb].
  - intros _ Hup Hlim [= <-]. rewrite andb_true_r, orb_false_r. auto.
  - intros Hflags Hup Hlim Hloop. apply andb_prop in Hflags as [Hs Hrest].
    destruct (ServerStatus_step self s) as [self'|] eqn:Hstep;
      [cbn [obind] in Hloop | discriminate Hloop].
    pose proof (ServerStatus_step_ret _ _ _ Hstep) as Hok.
    destruct (ServerStatus_step_ok self s Hok) as (n & Hslot & Hstep').
    rewrite Hstep in Hstep'. injection Hstep' as ->.
    unfold not_a_flag in Hs. rewrite Hslot in Hs.
    apply andb_prop in Hs as [Hs Hn3]. apply andb_prop in Hs as [Hn1 Hn2].
    apply negb_true_iff in Hn1, Hn2, Hn3.
    assert (Hup' : assoc "all_up" (flagged (status_attrs self) s)
                   = Some (VBool (all_up && (negb (record_live s) || record_up s)))).
    { unfold flagged. destruct (record_live s), (record_up s); cbn [negb orb];
        rewrite ?andb_true_r, ?andb_false_r;
        destruct (record_limited s);
        rewrite ?(assoc_set_ne "limited_access" "all_up") by reflexivity;
        rewrite ?assoc_set_eq; auto. }
    assert (Hlim' : assoc "limited_access" (flagged (status_attrs self) s)
                    = Some (VBool (limited || (record_live s && record_limited s)))).
    { unfold flagged. destruct (record_live s), (record_limited s);
        cbn [andb]; rewrite ?orb_true_r, ?orb_false_r;
        rewrite ?assoc_set_eq; destruct (record_up s); cbn [negb];
        rewrite ?(assoc_set_ne "all_up" "limited_access") by reflexivity;
        auto. }
    specialize (IH {| status_attrs :=
                        stored n s (flagged (status_attrs self) s) |}
                  (all_up && (negb (record_live s) || record_up s))
                  (limited || (record_live s && record_limited s)) Hrest).
    cbn [status_attrs] in IH. unfold stored in IH, Hloop.
    rewrite Hn3 in IH, Hloop.
    rewrite !assoc_set_ne in IH by assumption.
    specialize (IH Hup' Hlim' Hloop).
    rewrite <- andb_assoc, <- orb_assoc in IH. exact IH.
Qed.

(** When no platform or environment is named like one of the two flags or
    [__dict__], the flag [all_up] of the instance tells whether every record
    of the live environment has the status [UP], and the flag
    [limited_access] whether some record of the live environment is of
    limited access; the records of other environments do not count. *)
Theorem ServerStatus_flags (status_data : list pyval) (status : ServerStatus) :
  forallb not_a_flag status_data = true ->
  ServerStatus_init status_data = Ret status ->
  assoc "all_up" (status_attrs status)
  = Some (VBool (forallb (fun s => negb (record_live s) || record_up s)
                         status_data))
  /\ assoc "limited_access" (status_attrs status)
     = Some (VBool (existsb (fun s => record_live s && record_limited s)
                            status_data)).
Proof.
  intros Hflags Hinit.
  exact (ServerStatus_loop_flags status_data
           {| status_attrs :=
                [("all_up", VBool true); ("limited_access", VBool false)] |}
           status true false Hflags eq_refl eq_refl Hinit).
Qed.

Lemma ServerStatus_loop_keeps (n : string) (v : pyval)
      (status_data : list pyval) (self status : ServerStatus) :
  String.eqb n "all_up" = false -> String.eqb n "limited_access" = false ->
  Forall (fun s => record_slot s <> Some n
                   /\ record_slot s <> Some "__dict__") status_data ->
  assoc n (status_attrs self) = Some v ->
  ServerStatus_loop self status_data = Ret status ->
  assoc n (status_attrs status) = Some v.
Proof.
  intros Hn1 Hn2 Hother. revert self.
  induction Hother as [|s rest [Hs Hd] _ IH]; intros self Hv;
    cbn [ServerStatus_loop].
  - intros [= <-]. exact Hv.
  - destruct (ServerStatus_step self s) as [self'|] eqn:Hstep;
      [cbn [obind] | discriminate].
    apply IH.
    pose proof (ServerStatus_step_ret _ _ _ Hstep) as Hok.
    destruct (ServerStatus_step_ok self s Hok) as (m & Hslot & Hstep').
    rewrite Hstep in Hstep'. injection Hstep' as ->. cbn [status_attrs].
    assert (Hmn : String.eqb m n = false).
    { apply String.eqb_neq. intros ->. apply Hs. exact Hslot. }
    assert (Hmd : String.eqb m "__dict__" = false).
    { apply String.eqb_neq. intros ->. apply Hd. exact Hslot. }
    unfold stored. rewrite Hmd.
    rewrite assoc_set_ne by exact Hmn.
    unfold flagged.
    destruct (record_live s); [|exact Hv].
    destruct (record_up s), (record_limited s); cbn [negb];
      rewrite ?(assoc_set_ne "limited_access" n)
        by (rewrite String.eqb_sym; exact Hn2);
      rewrite ?(assoc_set_ne "all_up" n)
        by (rewrite String.eqb_sym; exact Hn1);
      exact Hv.
Qed.

(** The status of a record can be read back from the instance under the name
    of its platform (of its environment when it is not live), as long as the
    name is not the name of a flag nor [__dict__], and no later record is
    stored under the same name or under [__dict__]: it is the dict of its
    [limited_access], of whether its status is [UP], and of its [version]. *)
Theorem ServerStatus_lookup (before after : list pyval) (s : pyval)
        (n : string) (status : ServerStatus) :
  record_slot s = Some n ->
  String.eqb n "all_up" = false -> String.eqb n "limited_access" = false ->
  String.eqb n "__dict__" = false ->
  Forall (fun s' => record_slot s' <> Some n
                    /\ record_slot s' <> Some "__dict__") after ->
  ServerStatus_init (before ++ s :: after) = Ret status ->
  assoc n (status_attrs status) = Some (record_status s).
Proof.
  intros Hslot Hn1 Hn2 Hn3 Hafter. unfold ServerStatus_init.
  generalize {| status_attrs :=
                  [("all_up", VBool true); ("limited_access", VBool false)] |}.
  induction before as [|b before IH]; intros self;
    cbn [app ServerStatus_loop].
  - destruct (ServerStatus_step self s) as [self'|] eqn:Hstep;
      [cbn [obind] | discriminate].
    pose proof (ServerStatus_step_ret _ _ _ Hstep) as Hok.
    destruct (ServerStatus_step_ok self s Hok) as (m & Hslot' & Hstep').
    rewrite Hstep in Hstep'. injection Hstep' as ->.
    rewrite Hslot in Hslot'. injection Hslot' as <-.
    apply (ServerStatus_loop_keeps n); try assumption.
    cbn [status_attrs]. unfold stored. rewrite Hn3. apply assoc_set_eq.
  - destruct (ServerStatus_step self b) as [self'|];
      [cbn [obind] | discriminate].
    apply IH.
Qed.

End ServerStatusProperties.

(** ** More on the caches of the API client *)

Section CacheMore.
Context {endpoint : Endpoint}.

(** [get_server_status] issues the [gethirezserverstatus] call, once, exactly
    when no status is cached, the cached one has expired or the refresh is
    forced, and no other call; a forced refresh always issues it; the catalog
    cache is never changed. *)
Theorem get_server_status_calls (now : Z) (force_refresh : bool)
        (api : PaladinsAPI) :
  let api' := snd (get_server_status now force_refresh api) in
  requests api'
  = (requests api
     ++ if status_refresh_due now force_refresh api then [status_call] else [])%list
  /\ status_refresh_due now true api = true
  /\ cache api' = cache api.
Proof.
  cbv zeta. split; [|split].
  - destruct (status_refresh_due now force_refresh api) eqn:Hdue.
    + rewrite get_server_status_refresh by exact Hdue.
      destruct (endpoint_reply (requests api) status_call)
        as [[|record response]|e]; try reflexivity.
      destruct (ServerStatus_init (record :: response)); reflexivity.
    + rewrite get_server_status_idle by exact Hdue. cbn [snd].
      symmetry. apply app_nil_r.
  - unfold status_refresh_due.
    destruct (server_status api) as [[status expires_at]|];
      [apply orb_true_r | reflexivity].
  - destruct (status_refresh_due now force_refresh api) eqn:Hdue.
    + rewrite get_server_status_refresh by exact Hdue.
      destruct (endpoint_reply (requests api) status_call)
        as [[|record response]|e]; try reflexivity.
      destruct (ServerStatus_init (record :: response)); reflexivity.
    + rewrite get_server_status_idle by exact Hdue. reflexivity.
Qed.

(** [get_champion_info] issues no call when the catalog of the language is
    cached and fresh and the refresh is not forced; otherwise it issues
    [getgods] and then [getitems], the second only if the first did not
    raise; the cached server status is never changed. *)
Theorem get_champion_info_calls (now : Z) (language : Language)
        (force_refresh : bool) (api : PaladinsAPI) :
  let api' := snd (get_champion_info now language force_refresh api) in
  requests api'
  = (requests api
     ++ if _needs_refreshing now (cache api) language || force_refresh then
          match endpoint_reply (requests api) (champions_call language) with
          | Ret _ => [champions_call language; items_call language]
          | Raise _ => [champions_call language]
          end
        else [])%list
  /\ server_status api' = server_status api.
Proof.
  cbv zeta.
  destruct (_needs_refreshing now (cache api) language || force_refresh)
    eqn:Hdue.
  - rewrite get_champion_info_refresh by exact Hdue.
    destruct (endpoint_reply (requests api) (champions_call language))
      as [champions_response|e]; [|split; reflexivity].
    cbv zeta.
    destruct (endpoint_reply _ (items_call language)) as [items_response|e];
      [|split; reflexivity].
    destruct (nonempty champions_response && nonempty items_response);
      split; reflexivity.
  - rewrite get_champion_info_idle by exact Hdue. cbn [snd].
    split; [symmetry; apply app_nil_r | reflexivity].
Qed.

(** [get_server_status] returns [None] exactly when no status was cached and
    the fetch returned an empty response. *)
Theorem get_server_status_none (now : Z) (force_refresh : bool)
        (api : PaladinsAPI) :
  fst (get_server_status now force_refresh api) = Ret None
  <-> server_status api = None
      /\ endpoint_reply (requests api) status_call = Ret [].
Proof.
  destruct (status_refresh_due now force_refresh api) eqn:Hdue.
  - rewrite get_server_status_refresh by exact Hdue.
    unfold cached_status.
    destruct (endpoint_reply (requests api) status_call)
      as [[|record response]|e].
    + cbn [fst]. destruct (server_status api) as [[status expires_at]|].
      * split; [discriminate | intros [Hn _]; discriminate Hn].
      * split; auto.
    + destruct (ServerStatus_init (record :: response)); cbn [fst];
        (split; [discriminate | intros [_ Hn]; discriminate Hn]).
    + cbn [fst]. split; [discriminate | intros [_ Hn]; discriminate Hn].
  - rewrite get_server_status_idle by exact Hdue. cbn [fst].
    unfold status_refresh_due, cached_status in *.
    destruct (server_status api) as [[status expires_at]|]; [|discriminate].
    split; [discriminate | intros [Hn _]; discriminate Hn].
Qed.

(** [get_champion_info] returns [None] exactly when no catalog was cached
    for the language and both fetches returned, one of them an empty
    response. *)
Theorem get_champion_info_none (now : Z) (language : Language)
        (force_refresh : bool) (api : PaladinsAPI) :
  fst (get_champion_info now language force_refresh api) = Ret None
  <-> cache api !! language_value language = None
      /\ exists champions_response items_response,
           endpoint_reply (requests api) (champions_call language)
           = Ret champions_response
           /\ endpoint_reply (requests api ++ [champions_call language])
                             (items_call language)
              = Ret items_response
           /\ (champions_response = [] \/ items_response = []).
Proof.
  destruct (_needs_refreshing now (cache api) language || force_refresh)
    eqn:Hdue.
  - rewrite get_champion_info_refresh by exact Hdue.
    destruct (endpoint_reply (requests api) (champions_call language))
      as [champions_response|e].
    2:{ cbn [fst]. split; [discriminate|].
        intros (_ & c & i & Hc & _). discriminate Hc. }
    cbv zeta.
    destruct (endpoint_reply _ (items_call language)) as [items_response|e].
    2:{ cbn [fst]. split; [discriminate|].
        intros (_ & c & i & _ & Hi & _). discriminate Hi. }
    destruct (nonempty champions_response && nonempty items_response)
      eqn:Hboth; cbn [fst].
    + split; [discriminate|].
      intros (_ & c & i & [= <-] & [= <-] & [-> | ->]);
        [discriminate Hboth | rewrite andb_false_r in Hboth; discriminate].
    + unfold DataCache_getitem.
      destruct (cache api !! language_value language) as [[info t]|].
      * split; [discriminate | intros [Hn _]; discriminate Hn].
      * split; [|reflexivity].
        intros _. split; [reflexivity|].
        exists champions_response, items_response.
        split; [reflexivity | split; [reflexivity|]].
        destruct champions_response; [left; reflexivity|].
        destruct items_response; [right; reflexivity | discriminate Hboth].
  - rewrite get_champion_info_idle by exact Hdue. cbn [fst].
    apply orb_false_elim in Hdue as [Hfresh _].
    unfold _needs_refreshing in Hfresh. unfold DataCache_getitem.
    destruct (cache api !! language_value language) as [[info t]|];
      [|discriminate].
    split; [discriminate | intros [Hn _]; discriminate Hn].
Qed.

(** A refresh whose two fetches both return records returns the bundle built
    from the language and these two responses and stores it, with the
    current time, as the entry of the language; the entries of the other
    languages are left as they are. *)
Theorem get_champion_info_stores (now : Z) (language : Language)
        (force_refresh : bool) (api : PaladinsAPI)
        (champions_response items_response : list pyval) :
  _needs_refreshing now (cache api) language || force_refresh = true ->
  endpoint_reply (requests api) (champions_call language)
  = Ret champions_response ->
  endpoint_reply (requests api ++ [champions_call language])
                 (items_call language)
  = Ret items_response ->
  champions_response <> [] -> items_response <> [] ->
  let bundle := {| info_language := language;
                   info_champions := champions_response;
                   info_items := items_response |} in
  let api' := snd (get_champion_info now language force_refresh api) in
  fst (get_champion_info now language force_refresh api) = Ret (Some bundle)
  /\ cache api' !! language_value language = Some (bundle, now)
  /\ (forall other : Language,
        language_value other <> language_value language ->
        cache api' !! language_value other
        = cache api !! language_value other).
Proof.
  intros Hdue Hc Hi Hcne Hine. cbv zeta.
  rewrite get_champion_info_refresh by exact Hdue.
  rewrite Hc. cbv zeta. rewrite Hi.
  assert (Hboth : nonempty champions_response && nonempty items_response
                  = true).
  { destruct champions_response; [contradiction|].
    destruct items_response; [contradiction | reflexivity]. }
  rewrite Hboth. cbn [fst snd cache]. unfold DataCache_setitem. cbn [fst snd].
  split; [reflexivity | split].
  - apply lookup_insert_eq.
  - intros other Hne. apply lookup_insert_ne. congruence.
Qed.

(** After such a refresh at time [t0], every call without [force_refresh] at
    a time less than twelve hours after [t0] returns the same bundle and
    issues no call: it leaves the client as it is. *)
Theorem champion_info_stable (t0 : Z) (language : Language)
        (force_refresh : bool) (api : PaladinsAPI)
        (champions_response items_response : list pyval) :
  _needs_refreshing t0 (cache api) language || force_refresh = true ->
  endpoint_reply (requests api) (champions_call language)
  = Ret champions_response ->
  endpoint_reply (requests api ++ [champions_call language])
                 (items_call language)
  = Ret items_response ->
  champions_response <> [] -> items_response <> [] ->
  let api1 := snd (get_champion_info t0 language force_refresh api) in
  forall t, t - t0 < hours 12 ->
    get_champion_info t language false api1
    = (Ret (Some {| info_language := language;
                    info_champions := champions_response;
                    info_items := items_response |}), api1).
Proof.
  intros Hdue Hc Hi Hcne Hine api1 t Ht. subst api1.
  rewrite (get_champion_info_refresh t0 language force_refresh api Hdue).
  rewrite Hc. cbv zeta. rewrite Hi.
  assert (Hboth : nonempty champions_response && nonempty items_response
                  = true).
  { destruct champions_response; [contradiction|].
    destruct items_response; [contradiction | reflexivity]. }
  rewrite Hboth. cbn [snd].
  rewrite get_champion_info_idle.
  - cbn [cache]. unfold DataCache_getitem, DataCache_setitem.
    rewrite lookup_insert_eq. reflexivity.
  - cbn [cache]. unfold _needs_refreshing, DataCache_setitem.
    rewrite lookup_insert_eq. rewrite orb_false_r. lia.
Qed.

End CacheMore.

(** ** More on the players *)

Section PlayersMore.
Context {schema : Schema}.
Import Arez.

(** The comparison [a == b] of two players has the same outcome as
    [b == a], a boolean or the same exception; and it is transitive: when
    [a == b] and [b == c] are [True], so is [a == c]. *)
Theorem eq_symmetric_transitive (a b c : instance) :
  eq_op a (Instance b) = eq_op b (Instance a)
  /\ (eq_op a (Instance b) = Ret true -> eq_op b (Instance c) = Ret true ->
      eq_op a (Instance c) = Ret true).
Proof.
  split.
  - destruct a as [a|a], b as [b|b]; unfold eq_op, __eq__;
      cbn [class_of proper_subclass isinstance negb attrs]; try reflexivity;
      f_equal; rewrite (Z.eqb_sym (id _) (id _));
      match goal with
      | |- negb ?x && negb ?y && _ = _ => destruct x, y; reflexivity
      end.
  - destruct a as [a|a], b as [b|b], c as [c|c]; unfold eq_op, __eq__;
      cbn [class_of proper_subclass isinstance negb attrs];
      try discriminate;
      intros [= Hab] [= Hbc]; f_equal;
      apply andb_prop in Hab as [Hab Heq1]; apply andb_prop in Hab as [Ha _];
      apply andb_prop in Hbc as [Hbc Heq2]; apply andb_prop in Hbc as [_ Hc];
      apply Z.eqb_eq in Heq1, Heq2;
      rewrite Ha, Hc; cbn [andb]; apply Z.eqb_eq; congruence.
Qed.

Lemma digit_not_space (c : ascii) (d : Z) :
  digit_of c = Some d ->
  is_space c = false /\ Ascii.eqb c "+" = false /\ Ascii.eqb c "-" = false
  /\ 0 <= d.
Proof.
  destruct c as [[] [] [] [] [] [] [] []]; cbv; intros [= <-];
    repeat split; discriminate.
Qed.

Lemma digits_all (l : list ascii) (acc : Z) (after_digit : bool) :
  forallb (fun c => match digit_of c with Some _ => true | None => false end) l
  = true ->
  0 <= acc -> (l <> [] \/ after_digit = true) ->
  exists z, digits acc after_digit l = Some z /\ 0 <= z.
Proof.
  revert acc after_digit.
  induction l as [|c l IH]; intros acc after_digit Hall Hacc Hne;
    cbn [digits forallb] in *.
  - destruct Hne as [Hne | ->]; [contradiction | eauto].
  - apply andb_prop in Hall as [Hc Hall].
    destruct (digit_of c) as [d|] eqn:Hd; [|discriminate].
    apply digit_not_space in Hd as (_ & _ & _ & Hd).
    apply IH; [exact Hall | lia | right; reflexivity].
Qed.

Lemma lstrip_digit (c : ascii) (l : list ascii) (d : Z) :
  digit_of c = Some d -> lstrip (c :: l) = c :: l.
Proof.
  intros Hd. cbn [lstrip].
  destruct (digit_not_space c d Hd) as (-> & _). reflexivity.
Qed.

Lemma strip_decimal (s : string) :
  isdecimal s = true ->
  strip (list_ascii_of_string s) = list_ascii_of_string s.
Proof.
  unfold isdecimal.
  destruct (list_ascii_of_string s) as [|c l]; [discriminate|].
  intros Hall.
  assert (Hc : exists d, digit_of c = Some d).
  { cbn [forallb] in Hall. apply andb_prop in Hall as [Hc _].
    destruct (digit_of c) as [d|]; [eauto | discriminate]. }
  destruct Hc as [d Hd].
  unfold strip. rewrite (lstrip_digit c l d Hd).
  assert (Hrev : forallb (fun c => match digit_of c with
                                   | Some _ => true | None => false end)
                         (rev (c :: l)) = true).
  { apply forallb_forall. intros x Hx. apply in_rev in Hx.
    revert x Hx. apply forallb_forall. exact Hall. }
  destruct (rev (c :: l)) as [|c' l'] eqn:Hr.
  - apply (f_equal (@List.length ascii)) in Hr.
    rewrite length_rev in Hr. discriminate Hr.
  - cbn [forallb] in Hrev. apply andb_prop in Hrev as [Hc' _].
    destruct (digit_of c') as [d'|] eqn:Hd'; [|discriminate].
    rewrite (lstrip_digit c' l' d' Hd'), <- Hr. apply rev_involutive.
Qed.

Lemma count_digits_decimal (s : string) :
  isdecimal s = true ->
  count_digits (list_ascii_of_string s) = Z.of_nat (String.length s).
Proof.
  unfold isdecimal, count_digits.
  assert (Hlen : forall s, List.length (list_ascii_of_string s)
                           = String.length s).
  { clear. induction s as [|c s IH]; [reflexivity|].
    cbn [list_ascii_of_string List.length String.length]. rewrite IH.
    reflexivity. }
  rewrite <- Hlen.
  destruct (list_ascii_of_string s) as [|c l]; [discriminate|].
  generalize (c :: l). clear. intros l Hall. f_equal.
  induction l as [|c l IH]; [reflexivity|].
  cbn [forallb List.filter] in *. apply andb_prop in Hall as [Hc Hall].
  rewrite Hc. cbn [List.length]. rewrite (IH Hall). reflexivity.
Qed.

Lemma unsigned_decimal (l : list ascii) :
  l <> [] ->
  forallb (fun c => match digit_of c with Some _ => true | None => false end) l
  = true ->
  exists z, match l with
            | "+"%char :: r => digits 0 false r
            | "-"%char :: r => option_map Z.opp (digits 0 false r)
            | l0 => digits 0 false l0
            end = Some z /\ 0 <= z.
Proof.
  intros Hne Hall.
  destruct (digits_all l 0 false Hall) as (z & Hz & Hpos);
    [lia | left; exact Hne |].
  exists z. split; [|exact Hpos]. rewrite <- Hz.
  destruct l as [|c l]; [contradiction|].
  cbn [forallb] in Hall. apply andb_prop in Hall as [Hc _].
  destruct c as [[] [] [] [] [] [] [] []]; try reflexivity;
    discriminate Hc.
Qed.

(** Decimal text of at most 4300 digits converts to a natural number; longer
    decimal text does not convert. *)
Lemma isdecimal_int (s : string) :
  isdecimal s = true ->
  (Z.of_nat (String.length s) <= int_max_str_digits ->
   exists z, py_int (VStr s) = Ret z /\ 0 <= z)
  /\ (int_max_str_digits < Z.of_nat (String.length s) ->
      py_int (VStr s) = Raise ValueError).
Proof.
  intros Hs. unfold py_int, int_of_str. cbv zeta.
  rewrite (strip_decimal s Hs), (count_digits_decimal s Hs).
  assert (Hl : list_ascii_of_string s <> []
               /\ forallb (fun c => match digit_of c with
                                    | Some _ => true | None => false end)
                          (list_ascii_of_string s) = true).
  { unfold isdecimal in Hs.
    destruct (list_ascii_of_string s); [discriminate|].
    split; [discriminate | exact Hs]. }
  destruct Hl as [Hne Hall].
  split.
  - intros Hlen.
    destruct (Z.ltb_spec int_max_str_digits (Z.of_nat (String.length s)));
      [lia|].
    destruct (unsigned_decimal _ Hne Hall) as (z & -> & Hpos). eauto.
  - intros Hlen.
    destruct (Z.ltb_spec int_max_str_digits (Z.of_nat (String.length s)));
      [reflexivity | lia].
Qed.

Lemma PartialPlayer_init_name (id_ name_ platform_ : pyval)
      (player : PartialPlayer) :
  PartialPlayer_init id_ name_ platform_ = Ret player ->
  name player = name_.
Proof.
  unfold PartialPlayer_init.
  destruct (py_int id_) as [z|]; [cbn [obind] | discriminate].
  destruct (match platform_ with VStr _ => _ | _ => _ end);
    [cbn [obind] | discriminate].
  intros [= <-]. reflexivity.
Qed.

(** [PartialPlayer(api, id=..., name=..., platform=...)] fails on its
    identifier, when [int(id)] raises, with that exception; and otherwise
    only on a platform given as decimal text of more than 4300 digits, with
    [ValueError]. In every other case it returns an instance with the
    integer value of the identifier as [id] and the name as it was given. *)
Theorem PartialPlayer_init_failures (id_ name_ platform_ : pyval) :
  (forall e, py_int id_ = Raise e ->
     PartialPlayer_init id_ name_ platform_ = Raise e)
  /\ (forall z, py_int id_ = Ret z ->
        (forall s, platform_ = VStr s -> isdecimal s = true ->
                   Z.of_nat (String.length s) <= int_max_str_digits) ->
        exists player, PartialPlayer_init id_ name_ platform_ = Ret player
                       /\ id player = z /\ name player = name_)
  /\ (forall z s, py_int id_ = Ret z ->
        platform_ = VStr s -> isdecimal s = true ->
        int_max_str_digits < Z.of_nat (String.length s) ->
        PartialPlayer_init id_ name_ platform_ = Raise ValueError).
Proof.
  unfold PartialPlayer_init. split; [|split].
  - intros e ->. reflexivity.
  - intros z -> Hshort. cbn [obind].
    assert (Hplat : exists v,
               match platform_ with
               | VStr s => if isdecimal s
                           then z0 <~ py_int platform_ ;; Ret (VInt z0)
                           else Ret platform_
               | _ => Ret platform_
               end = Ret v).
    { destruct platform_ as [| | |s| | |]; eauto.
      destruct (isdecimal s) eqn:Hs; eauto.
      destruct (proj1 (isdecimal_int s Hs) (Hshort s eq_refl Hs))
        as (z0 & -> & _).
      cbn [obind]. eauto. }
    destruct Hplat as [v ->]. cbn [obind]. eauto.
  - intros z s -> -> Hs Hlong. cbn [obind]. rewrite Hs.
    rewrite (proj2 (isdecimal_int s Hs) Hlong). reflexivity.
Qed.

Lemma omap_length {A B} (f : A -> outcome B) (l : list A) (r : list B) :
  omap f l = Ret r -> List.length r = List.length l.
Proof.
  revert r. induction l as [|x l IH]; intros r; cbn [omap].
  - intros [= <-]. reflexivity.
  - destruct (f x) as [y|]; [cbn [obind] | discriminate].
    destruct (omap f l) as [ys|]; [cbn [obind] | discriminate].
    intros [= <-]. cbn [List.length]. f_equal. exact (IH ys eq_refl).
Qed.

(** A [Player] built from a record carries the [Name] of the record; its
    [active_player] is [None] exactly when [ActivePlayerId] equals its own
    identifier, and otherwise a player with the integer value of
    [ActivePlayerId] as its identifier; its [merged_players] are empty when
    [MergedPlayers] is empty or [None], and as many as the records of the
    list otherwise. *)
Theorem Player_init_fields (player_data : pyval) (player : Player) :
  Player_init player_data = Ret player ->
  exists Name ActivePlayerId MergedPlayers,
    getitem player_data "Name" = Ret Name
    /\ name (partial player) = Name
    /\ getitem player_data "ActivePlayerId" = Ret ActivePlayerId
    /\ (if py_eq ActivePlayerId (VInt (id (partial player)))
        then active_player player = None
        else exists other, active_player player = Some other
                           /\ py_int ActivePlayerId = Ret (id other))
    /\ getitem player_data "MergedPlayers" = Ret MergedPlayers
    /\ (truthy MergedPlayers = false -> merged_players player = [])
    /\ (forall records, MergedPlayers = VList records ->
          List.length (merged_players player) = List.length records).
Proof.
  unfold Player_init. intros Hinit.
  repeat match type of Hinit with
         | obind ?m _ = Ret _ =>
             let v := fresh "v" in
             let E := fresh "E" in
             destruct m as [v|] eqn:E;
             [cbn [obind] in Hinit | discriminate Hinit]
         end.
  injection Hinit as <-.
  cbn [partial active_player merged_players].
  match goal with
  | E1 : getitem player_data "Name" = Ret ?n,
    E2 : getitem player_data "ActivePlayerId" = Ret ?a,
    E3 : getitem player_data "MergedPlayers" = Ret ?m |- _ =>
      exists n, a, m
  end.
  repeat match goal with
         | |- _ /\ _ => split
         end; try reflexivity.
  - match goal with
    | E : PartialPlayer_init ?i ?n ?pl = Ret ?p |- _ =>
        exact (PartialPlayer_init_name i n pl p E)
    end.
  - match goal with
    | E : (if negb (py_eq ?a (VInt ?i)) then _ else _) = Ret ?r |- _ =>
        destruct (py_eq a (VInt i)); cbn [negb] in E;
        [injection E as <-; reflexivity|];
        destruct (PartialPlayer_init a (VStr "") (VInt 0)) as [q|] eqn:Hq;
        [cbn [obind] in E | discriminate E];
        injection E as <-
    end.
    eexists. split; [reflexivity|].
    exact (PartialPlayer_init_id _ _ _ _ Hq).
  - intros Hfalsy.
    match goal with
    | E : (if truthy ?m then _ else _) = Ret ?r |- _ =>
        rewrite Hfalsy in E; injection E as <-
    end.
    reflexivity.
  - intros records ->.
    match goal with
    | E : (if truthy (VList records) then _ else _) = Ret ?r |- _ =>
        destruct records as [|r0 records];
        [cbn [truthy] in E; injection E as <-; reflexivity|];
        cbn [truthy obind iterate] in E;
        exact (omap_length _ _ _ E)
    end.
Qed.

(** [Player(api, player_data)] raises [TypeError] when [player_data] is not
    a dict, and [KeyError] when it is a dict without one of the keys [Id],
    [Name] and [Platform], which are read before anything else. *)
Theorem Player_init_missing_key (player_data : pyval) :
  ((forall kv, player_data <> VDict kv) ->
   Player_init player_data = Raise TypeError)
  /\ (forall kv, player_data = VDict kv ->
        assoc "Id" kv = None \/ assoc "Name" kv = None
        \/ assoc "Platform" kv = None ->
        Player_init player_data = Raise KeyError).
Proof.
  split.
  - intros Hnot. unfold Player_init.
    destruct player_data; try reflexivity.
    exfalso. eapply Hnot. reflexivity.
  - intros kv -> Hmissing. unfold Player_init, getitem.
    destruct (assoc "Id" kv); [cbn [obind] | reflexivity].
    destruct (assoc "Name" kv); [cbn [obind] | reflexivity].
    destruct (assoc "Platform" kv); [cbn [obind] | reflexivity].
    destruct Hmissing as [H | [H | H]]; discriminate H.
Qed.

End PlayersMore.

(** ** More on the operations derived from a player *)

Section DerivedMore.
Context {schema : Schema} {endpoint : Endpoint} {entities : Arez.Entities}
        {status_entities : ArezMore.StatusEntities}.
Import Arez ArezMore.

(** On a player whose identifier is zero every operation that would fetch
    raises [Private] and leaves the client as it was: no call is issued, the
    catalog is not resolved. *)
Theorem private_raises (now : Z) (self : instance) (language : Language)
        (api : PaladinsAPI) :
  id (attrs self) = 0 ->
  get_status self api = (Raise Private, api)
  /\ get_friends self api = (Raise Private, api)
  /\ get_loadouts now self language api = (Raise Private, api)
  /\ get_champion_stats now self language api = (Raise Private, api)
  /\ get_match_history now self language api = (Raise Private, api).
Proof.
  intros Hz.
  unfold get_status, get_friends, get_loadouts, get_champion_stats,
    get_match_history, private.
  rewrite Hz. repeat split; reflexivity.
Qed.

Lemma omap_Forall2 {A B} (f : A -> outcome B) (l : list A) (r : list B) :
  omap f l = Ret r -> Forall2 (fun x y => f x = Ret y) l r.
Proof.
  revert r. induction l as [|x l IH]; intros r; cbn [omap].
  - intros [= <-]. constructor.
  - destruct (f x) as [y|] eqn:Hy; [cbn [obind] | discriminate].
    destruct (omap f l) as [ys|]; [cbn [obind] | discriminate].
    intros [= <-]. constructor; [exact Hy | apply IH; reflexivity].
Qed.

(** [get_friends] builds a player from every record of the response, in
    order and without leaving any out: the friend built from a record has
    the integer value of its [player_id] as identifier and its [name] as
    name. *)
Theorem get_friends_maps (self : instance) (api : PaladinsAPI)
        (response : list pyval) (friends : list PartialPlayer) :
  id (attrs self) <> 0 ->
  endpoint_reply (requests api) ("getfriends", [VInt (id (attrs self))])
  = Ret response ->
  fst (get_friends self api) = Ret friends ->
  Forall2 (fun p friend =>
             exists player_id,
               getitem p "player_id" = Ret player_id
               /\ py_int player_id = Ret (id friend)
               /\ getitem p "name" = Ret (name friend))
          response friends.
Proof.
  intros Hnz Hreply.
  assert (Hp : private self = false) by (unfold private; lia).
  unfold get_friends. rewrite Hp. unfold bind, request, lift.
  rewrite Hreply. cbn [fst]. intros Hmap. clear Hreply.
  apply omap_Forall2 in Hmap.
  induction Hmap as [|p friend response friends Hfriend _ IH]; constructor.
  - destruct (getitem p "player_id") as [player_id|];
      [cbn [obind] in Hfriend | discriminate Hfriend].
    destruct (getitem p "name") as [name_|];
      [cbn [obind] in Hfriend | discriminate Hfriend].
    exists player_id. split; [reflexivity|].
    split; [exact (PartialPlayer_init_id _ _ _ _ Hfriend)|].
    rewrite (PartialPlayer_init_name _ _ _ _ Hfriend). reflexivity.
  - exact IH.
Qed.

(** The operations that need the catalog resolve it first: when resolving
    it raises, they raise the same exception and their own call is never
    issued; otherwise their own call follows the calls of the catalog, as
    the last call of the client. *)
Theorem catalog_first (now : Z) (self : instance) (language : Language)
        (api : PaladinsAPI) :
  id (attrs self) <> 0 ->
  let catalog := get_champion_info now language false api in
  (forall e, fst catalog = Raise e ->
     get_loadouts now self language api = (Raise e, snd catalog)
     /\ get_champion_stats now self language api = (Raise e, snd catalog)
     /\ get_match_history now self language api = (Raise e, snd catalog))
  /\ (forall info, fst catalog = Ret info ->
        requests (snd (get_loadouts now self language api))
        = (requests (snd catalog)
           ++ [("getplayerloadouts",
                [VInt (id (attrs self)); VInt (language_value language)])])%list
        /\ requests (snd (get_champion_stats now self language api))
           = (requests (snd catalog)
              ++ [("getgodranks", [VInt (id (attrs self))])])%list
        /\ requests (snd (get_match_history now self language api))
           = (requests (snd catalog)
              ++ [("getmatchhistory", [VInt (id (attrs self))])])%list).
Proof.
  intros Hnz catalog. subst catalog.
  assert (Hp : private self = false) by (unfold private; lia).
  unfold get_loadouts, get_champion_stats, get_match_history.
  rewrite Hp. unfold bind. cbv beta.
  destruct (get_champion_info now language false api) as [[info|e0] api1].
  - split; [intros e He; discriminate He|].
    intros info' _. cbn [snd].
    unfold request, lift, ret, obind.
    repeat split; cbv beta iota;
      repeat match goal with
             | |- context [match ?x with _ => _ end] =>
                 destruct x; cbv beta iota
             end;
      reflexivity.
  - split; [|intros info Hi; discriminate Hi].
    intros e [= <-]. repeat split; reflexivity.
Qed.

(** When the first record of the response does not signal an empty result,
    [get_match_history] and [get_loadouts] build an entity from every record
    of the response; an empty response gives the empty list. *)
Theorem records_are_mapped (now : Z) (self : instance) (language : Language)
        (api api1 : PaladinsAPI) (info : option ChampionInfo) :
  id (attrs self) <> 0 ->
  get_champion_info now language false api = (Ret info, api1) ->
  (forall response,
     endpoint_reply (requests api1)
                    ("getmatchhistory", [VInt (id (attrs self))])
     = Ret response ->
     (response = [] ->
      fst (get_match_history now self language api) = Ret [])
     /\ (forall m rest ret_msg,
           response = m :: rest ->
           getitem m "ret_msg" = Ret ret_msg -> truthy ret_msg = false ->
           fst (get_match_history now self language api)
           = omap (PartialMatch_init self language) response))
  /\ (forall response,
        endpoint_reply (requests api1)
                       ("getplayerloadouts",
                        [VInt (id (attrs self));
                         VInt (language_value language)])
        = Ret response ->
        (response = [] -> fst (get_loadouts now self language api) = Ret [])
        /\ (forall l rest playerId,
              response = l :: rest ->
              getitem l "playerId" = Ret playerId -> truthy playerId = true ->
              fst (get_loadouts now self language api)
              = omap (Loadout_init self language) response)).
Proof.
  intros Hnz Hinfo.
  assert (Hp : private self = false) by (unfold private; lia).
  unfold get_match_history, get_loadouts. rewrite Hp.
  unfold bind. cbv beta. rewrite Hinfo. cbv beta iota.
  unfold request, lift, ret.
  split; intros response ->; split.
  - intros ->. reflexivity.
  - intros m rest ret_msg -> Hmsg Hfalsy. cbn [nonempty negb first obind].
    rewrite Hmsg. cbn [obind]. rewrite Hfalsy. reflexivity.
  - intros ->. reflexivity.
  - intros l rest playerId -> Hid Htruthy. cbn [nonempty negb first obind].
    rewrite Hid. cbn [obind]. rewrite Htruthy. reflexivity.
Qed.

(** [get_status] returns [None] when the response is empty or when the
    status of its first record is 5; otherwise it returns what
    [PlayerStatus] builds from the first record. *)
Theorem get_status_outcome (self : instance) (api : PaladinsAPI)
        (response : list pyval) :
  id (attrs self) <> 0 ->
  endpoint_reply (requests api) ("getplayerstatus", [VInt (id (attrs self))])
  = Ret response ->
  (response = [] -> fst (get_status self api) = Ret None)
  /\ (forall r rest status,
        response = r :: rest -> getitem r "status" = Ret status ->
        fst (get_status self api)
        = if py_eq status (VInt 5) then Ret None
          else (s <~ PlayerStatus_init self r ;; Ret (Some s))).
Proof.
  intros Hnz Hreply.
  assert (Hp : private self = false) by (unfold private; lia).
  unfold get_status. rewrite Hp. unfold bind, request, lift, ret.
  rewrite Hreply. split.
  - intros ->. reflexivity.
  - intros r rest status -> Hstatus. cbn [nonempty first obind].
    rewrite Hstatus. cbn [obind].
    destruct (py_eq status (VInt 5)); cbn [negb]; [reflexivity|].
    destruct (PlayerStatus_init self r); reflexivity.
Qed.

End DerivedMore.

(** ** The remaining operations of the API client *)

Section APIMoreProperties.
Context {endpoint : Endpoint} {api_entities : ApiEntities}.

(** The assertions on the types of the arguments come first: an argument of
    another type raises [AssertionError] and no call is issued. *)
Theorem api_assertions (now : Z) (v : pyval) (language : Language)
        (platform : ApiPlatform) (some_platform : option ApiPlatform)
        (api : PaladinsAPI) :
  (isinstance_int v = false ->
   get_player_from_id v = Raise AssertionError
   /\ get_from_platform v platform api = (Raise AssertionError, api)
   /\ get_match now v language api = (Raise AssertionError, api))
  /\ (isinstance_int v = false -> isinstance_str v = false ->
      get_player v api = (Raise AssertionError, api))
  /\ (isinstance_str v = false ->
      search_players v some_platform api = (Raise AssertionError, api)).
Proof.
  unfold get_player_from_id, get_from_platform, get_match, get_player,
    search_players.
  split; [|split].
  - intros ->. repeat split; reflexivity.
  - intros -> ->. reflexivity.
  - intros Hs. destruct v; try reflexivity. discriminate Hs.
Qed.

(** [get_player] and [get_from_platform] issue one call; an empty response
    gives [None], and otherwise the result is built from the first record of
    the response, the others being ignored. *)
Theorem first_record_or_none (key : pyval) (platform : ApiPlatform)
        (api : PaladinsAPI) :
  (isinstance_int key || isinstance_str key = true ->
   forall response,
     endpoint_reply (requests api) ("getplayer", [key]) = Ret response ->
     get_player key api
     = (match response with
        | [] => Ret None
        | player_data :: _ => p <~ ApiPlayer_init player_data ;; Ret (Some p)
        end, issued api [("getplayer", [key])]))
  /\ (isinstance_int key = true ->
      let c := ("getplayeridbyportaluserid",
                [VInt (ApiPlatform_value platform); key]) in
      forall response,
        endpoint_reply (requests api) c = Ret response ->
        get_from_platform key platform api
        = (match response with
           | [] => Ret None
           | r :: _ => p <~ ApiPartialPlayer_init r ;; Ret (Some p)
           end, issued api [c])).
Proof.
  unfold get_player, get_from_platform. split.
  - intros -> response Hreply. cbn [negb].
    unfold bind, request, lift, ret. rewrite Hreply.
    destruct response as [|player_data rest]; [reflexivity|].
    cbn [nonempty first]. destruct (ApiPlayer_init player_data); reflexivity.
  - intros Hint. cbv zeta. intros response Hreply. rewrite Hint. cbn [negb].
    unfold bind, request, lift, ret. rewrite Hreply.
    destruct response as [|r rest]; [reflexivity|].
    cbn [nonempty first]. destruct (ApiPartialPlayer_init r); reflexivity.
Qed.

(** [get_match] resolves the catalog of the language first: when that
    raises, it raises the same exception and the call for the match is never
    issued; otherwise the call for the match follows, an empty response
    gives [None], and any other response is handed as a whole, with the
    language, to [Match]. *)
Theorem get_match_catalog_first (now : Z) (match_id : pyval)
        (language : Language) (api : PaladinsAPI) :
  isinstance_int match_id = true ->
  let catalog := get_champion_info now language false api in
  (forall e, fst catalog = Raise e ->
     get_match now match_id language api = (Raise e, snd catalog))
  /\ (forall info response,
        fst catalog = Ret info ->
        endpoint_reply (requests (snd catalog)) ("getmatchdetails", [match_id])
        = Ret response ->
        get_match now match_id language api
        = (match response with
           | [] => Ret None
           | _ => m <~ Match_init language response ;; Ret (Some m)
           end, issued (snd catalog) [("getmatchdetails", [match_id])])).
Proof.
  intros Hint catalog. subst catalog.
  unfold get_match. rewrite Hint. cbn [negb]. unfold bind. cbv beta.
  destruct (get_champion_info now language false api) as [[info|e0] api1].
  - split; [intros e He; discriminate He|].
    intros info' response _ Hreply. cbn [snd] in *.
    unfold request, lift, ret. rewrite Hreply.
    destruct response as [|r rest]; [reflexivity|].
    cbn [nonempty]. destruct (Match_init language (r :: rest)); reflexivity.
  - split; [|intros info response Hi; discriminate Hi].
    intros e [= <-]. reflexivity.
Qed.

Lemma name_matches_filter (player_name : string) (response : list pyval) :
  forallb has_name response = true ->
  name_matches player_name response
  = Ret (List.filter (name_is player_name) response).
Proof.
  induction response as [|r rest IH]; [reflexivity|].
  cbn [forallb name_matches List.filter]. unfold has_name at 1, name_is at 1.
  intros Hall. apply andb_prop in Hall as [Hr Hrest].
  destruct (getitem r "Name") as [[| | |n| | |]|]; try discriminate Hr.
  cbn [obind]. rewrite (IH Hrest). cbn [obind].
  destruct (String.eqb (lower n) player_name); reflexivity.
Qed.

(** Without a platform, [search_players] issues the [searchplayers] call
    with the name in lower case and builds a player from exactly those
    records of the response whose [Name] equals the name searched for up to
    the case of the letters, in the order of the response. *)
Theorem search_players_exact_names (player_name : string) (api : PaladinsAPI)
        (response : list pyval) :
  endpoint_reply (requests api) ("searchplayers", [VStr (lower player_name)])
  = Ret response ->
  forallb has_name response = true ->
  search_players (VStr player_name) None api
  = (omap ApiPartialPlayer_init
          (List.filter (name_is (lower player_name)) response),
     issued api [("searchplayers", [VStr (lower player_name)])]).
Proof.
  intros Hreply Hnames. unfold search_players, bind, request, lift.
  rewrite Hreply. rewrite (name_matches_filter _ _ Hnames). reflexivity.
Qed.

Lemma lower_char_idempotent (c : ascii) :
  lower_char (lower_char c) = lower_char c.
Proof. destruct c as [[] [] [] [] [] [] [] []]; reflexivity. Qed.

(** The case of the letters of the name searched for does not matter: two
    names that are equal in lower case give the same search, and a name
    gives the same search as its lower case. *)
Theorem search_players_ignores_case (player_name other : string)
        (platform : option ApiPlatform) (api : PaladinsAPI) :
  (lower player_name = lower other ->
   search_players (VStr player_name) platform api
   = search_players (VStr other) platform api)
  /\ search_players (VStr (lower player_name)) platform api
     = search_players (VStr player_name) platform api.
Proof.
  assert (Hidem : forall s, lower (lower s) = lower s).
  { induction s as [|c s IH]; [reflexivity|].
    cbn [lower]. rewrite lower_char_idempotent, IH. reflexivity. }
  split.
  - intros Heq. unfold search_players. rewrite Heq. reflexivity.
  - unfold search_players. rewrite Hidem. reflexivity.
Qed.

End APIMoreProperties.

(** ** The further statements at concrete inputs *)

Module MoreWitnesses.
Import Examples MoreExamples Arez ArezMore.

Lemma attrgetter_nested_witness :
  Utils.attrgetter (Utils.replace_dunder "champion__name") card
  = Ret (VStr "Evie").
Proof.
  exact (eq_trans (proj2 (attrgetter_nested "champion" "name" card) eq_refl)
                  eq_refl).
Defined.

Lemma get_first_match_witness :
  Utils.get [androxus; evie; fernando]
            [("role", VStr "Flank"); ("name", VStr "Evie")]
  = Ret evie.
Proof.
  apply (get_first_match [androxus] [fernando] evie
           [("role", VStr "Flank"); ("name", VStr "Evie")]).
  - discriminate.
  - constructor; [split; reflexivity | constructor].
  - reflexivity.
Defined.

Lemma get_no_match_witness :
  Utils.get [androxus; evie]
            [("role", VStr "Flank"); ("name", VStr "Fernando")]
  = Ret VNone.
Proof.
  apply get_no_match.
  - discriminate.
  - repeat constructor.
Defined.

Lemma get_returns_member_witness :
  evie = VNone \/ In evie [androxus; evie; fernando].
Proof.
  exact (get_returns_member [androxus; evie; fernando]
           [("role", VStr "Flank"); ("name", VStr "Evie")] evie eq_refl).
Defined.

Lemma get_unresolved_raises_witness :
  Utils.get [androxus; nameless; evie]
            [("id", VInt 2094); ("name", VStr "Evie")]
  = Raise AttributeError.
Proof.
  apply (get_unresolved_raises [androxus] [evie] nameless
           [("id", VInt 2094)] [] ("name", VStr "Evie")).
  - discriminate.
  - constructor; [split; reflexivity | constructor].
  - reflexivity.
  - reflexivity.
Defined.

Lemma get_name_or_id_raises_witness :
  Utils.get_name_or_id [androxus; evie] (VStr "Evie") = Raise TypeError
  /\ Utils.get_name_or_id [androxus; evie] (VInt 2094) = Raise TypeError.
Proof.
  split.
  - exact (get_name_or_id_raises [androxus; evie] (VStr "Evie") eq_refl).
  - exact (get_name_or_id_raises [androxus; evie] (VInt 2094) eq_refl).
Defined.

Lemma ServerStatus_init_succeeds_witness :
  (exists status,
     ServerStatus_init [status_record; pts_down; xbox_down] = Ret status)
  /\ ~ (exists status, ServerStatus_init [status_record; VNone] = Ret status).
Proof.
  split.
  - exact (proj2 (ServerStatus_init_succeeds
                    [status_record; pts_down; xbox_down]) eq_refl).
  - intros Hex.
    pose proof (proj1 (ServerStatus_init_succeeds [status_record; VNone]) Hex)
      as Hok.
    discriminate Hok.
Defined.

Lemma ServerStatus_flags_witness :
  exists status,
    ServerStatus_init [status_record; pts_down; xbox_down] = Ret status
    /\ assoc "all_up" (status_attrs status) = Some (VBool false)
    /\ assoc "limited_access" (status_attrs status) = Some (VBool true)
    /\ assoc "all_up" (status_attrs status_up) = Some (VBool true).
Proof.
  eexists. split; [reflexivity|].
  split; [|split].
  - exact (proj1 (ServerStatus_flags [status_record; pts_down; xbox_down] _
                    eq_refl eq_refl)).
  - exact (proj2 (ServerStatus_flags [status_record; pts_down; xbox_down] _
                    eq_refl eq_refl)).
  - exact (proj1 (ServerStatus_flags [status_record; pts_down] _
                    eq_refl eq_refl)).
Defined.

Lemma ServerStatus_lookup_witness :
  exists status,
    ServerStatus_init [status_record; pts_down; xbox_down] = Ret status
    /\ assoc "pts" (status_attrs status)
       = Some (VDict [("limited_access", VBool false); ("up", VBool false);
                      ("version", VStr "3.2")]).
Proof.
  eexists. split; [reflexivity|].
  apply (ServerStatus_lookup [status_record] [xbox_down] pts_down "pts").
  - reflexivity.
  - reflexivity.
  - reflexivity.
  - reflexivity.
  - constructor; [split; discriminate | constructor].
  - reflexivity.
Defined.

Lemma get_server_status_none_witness :
  fst (get_server_status (endpoint := always []) 0 false PaladinsAPI_init)
  = Ret None.
Proof.
  exact (proj2 (get_server_status_none (endpoint := always [])
                  0 false PaladinsAPI_init)
               (conj eq_refl eq_refl)).
Defined.

Lemma get_champion_info_none_witness :
  fst (get_champion_info (endpoint := items_empty) 0 english false
                         PaladinsAPI_init)
  = Ret None.
Proof.
  apply (proj2 (get_champion_info_none (endpoint := items_empty)
                  0 english false PaladinsAPI_init)).
  split; [reflexivity|].
  exists [VDict [("id", VInt 2205)]], [].
  split; [reflexivity | split; [reflexivity | right; reflexivity]].
Defined.

Lemma get_champion_info_stores_witness :
  fst (get_champion_info (endpoint := always [catalog_record])
                         (hours 13) english false warm)
  = Ret (Some {| info_language := english;
                 info_champions := [catalog_record];
                 info_items := [catalog_record] |}).
Proof.
  apply (get_champion_info_stores (endpoint := always [catalog_record])
           (hours 13) english false warm [catalog_record] [catalog_record]).
  - reflexivity.
  - reflexivity.
  - reflexivity.
  - discriminate.
  - discriminate.
Defined.

Lemma champion_info_stable_witness :
  let api1 := snd (get_champion_info (endpoint := always [catalog_record])
                                     0 english false PaladinsAPI_init) in
  get_champion_info (endpoint := always [catalog_record])
                    (hours 1) english false api1
  = (Ret (Some {| info_language := english;
                  info_champions := [catalog_record];
                  info_items := [catalog_record] |}), api1).
Proof.
  apply (champion_info_stable (endpoint := always [catalog_record])
           0 english false PaladinsAPI_init [catalog_record] [catalog_record]).
  - reflexivity.
  - reflexivity.
  - reflexivity.
  - discriminate.
  - discriminate.
  - reflexivity.
Defined.

Lemma eq_symmetric_transitive_witness :
  eq_op (OfPlayer (full_player 5)) (Instance (OfPlayer (full_player 5)))
  = Ret true.
Proof.
  exact (proj2 (eq_symmetric_transitive
                  (OfPlayer (full_player 5)) (OfPlayer (full_player 5))
                  (OfPlayer (full_player 5))) eq_refl eq_refl).
Defined.

Lemma PartialPlayer_init_failures_witness :
  (exists player,
     PartialPlayer_init (schema := schema) (VStr " 42 ") (VStr "Bar") (VStr "5")
     = Ret player
     /\ id player = 42 /\ name player = VStr "Bar")
  /\ PartialPlayer_init (schema := schema) VNone (VStr "Bar") (VInt 1)
     = Raise TypeError.
Proof.
  split.
  - refine (proj1 (proj2 (PartialPlayer_init_failures (schema := schema)
                            (VStr " 42 ") (VStr "Bar") (VStr "5")))
                  42 eq_refl _).
    intros s [= <-] _. cbv. discriminate.
  - exact (proj1 (PartialPlayer_init_failures (schema := schema)
                    VNone (VStr "Bar") (VInt 1)) TypeError eq_refl).
Defined.

Lemma Player_init_fields_witness :
  exists Name ActivePlayerId MergedPlayers,
    getitem (player_record 5) "Name" = Ret Name
    /\ name (partial (full_player 5)) = Name
    /\ getitem (player_record 5) "ActivePlayerId" = Ret ActivePlayerId
    /\ (if py_eq ActivePlayerId (VInt (id (partial (full_player 5))))
        then active_player (full_player 5) = None
        else exists other, active_player (full_player 5) = Some other
                           /\ py_int ActivePlayerId = Ret (id other))
    /\ getitem (player_record 5) "MergedPlayers" = Ret MergedPlayers
    /\ (truthy MergedPlayers = false -> merged_players (full_player 5) = [])
    /\ (forall records, MergedPlayers = VList records ->
          List.length (merged_players (full_player 5)) = List.length records).
Proof.
  exact (Player_init_fields (schema := schema) (player_record 5)
                            (full_player 5) eq_refl).
Defined.

Lemma Player_init_missing_key_witness :
  Player_init (schema := schema) (VList []) = Raise TypeError
  /\ Player_init (schema := schema) (VDict [("Id", VInt 5)]) = Raise KeyError.
Proof.
  split.
  - apply (proj1 (Player_init_missing_key (schema := schema) (VList []))).
    intros kv Hkv. discriminate Hkv.
  - apply (proj2 (Player_init_missing_key (schema := schema)
                    (VDict [("Id", VInt 5)])) [("Id", VInt 5)] eq_refl).
    right. left. reflexivity.
Defined.

Lemma private_raises_witness :
  get_friends (schema := schema) (endpoint := always [friend_record])
              (OfPartialPlayer (partial_player 0)) PaladinsAPI_init
  = (Raise Private, PaladinsAPI_init)
  /\ get_match_history (entities := entities)
                       (endpoint := always [history_record])
                       0 (OfPlayer (full_player 0)) english PaladinsAPI_init
     = (Raise Private, PaladinsAPI_init).
Proof.
  split.
  - exact (proj1 (proj2 (private_raises (entities := entities)
                           (status_entities := status_entities)
                           (endpoint := always [friend_record])
                           0 (OfPartialPlayer (partial_player 0)) english
                           PaladinsAPI_init eq_refl))).
  - exact (proj2 (proj2 (proj2 (proj2
             (private_raises (entities := entities)
                (status_entities := status_entities)
                (endpoint := always [history_record])
                0 (OfPlayer (full_player 0)) english
                PaladinsAPI_init eq_refl))))).
Defined.

Lemma get_friends_maps_witness :
  Forall2 (fun p friend =>
             exists player_id,
               getitem p "player_id" = Ret player_id
               /\ py_int player_id = Ret (id friend)
               /\ getitem p "name" = Ret (name friend))
          [friend_record; friends_message]
          [ {| id := 42; name := VStr "Bar"; platform := (0 : @Platform schema) |};
            {| id := 0; name := VStr ""; platform := (0 : @Platform schema) |} ].
Proof.
  apply (get_friends_maps (schema := schema)
           (endpoint := always [friend_record; friends_message])
           (OfPartialPlayer (partial_player 3)) PaladinsAPI_init).
  - cbn. lia.
  - reflexivity.
  - reflexivity.
Defined.

Lemma catalog_first_witness :
  get_match_history (entities := entities) (endpoint := down)
                    0 (OfPartialPlayer (partial_player 3)) english
                    PaladinsAPI_init
  = (Raise TransportError,
     issued PaladinsAPI_init [champions_call english])
  /\ requests (snd (get_match_history (entities := entities)
                      (endpoint := always [history_record])
                      0 (OfPartialPlayer (partial_player 3)) english
                      PaladinsAPI_init))
     = [champions_call english; items_call english;
        ("getmatchhistory", [VInt 3])].
Proof.
  split.
  - exact (proj2 (proj2 (proj1 (catalog_first (entities := entities)
                                  (status_entities := status_entities)
                                  (endpoint := down)
                                  0 (OfPartialPlayer (partial_player 3))
                                  english PaladinsAPI_init
                                  ltac:(cbn; lia))
                               TransportError eq_refl))).
  - exact (proj2 (proj2 (proj2 (catalog_first (entities := entities)
                                  (status_entities := status_entities)
                                  (endpoint := always [history_record])
                                  0 (OfPartialPlayer (partial_player 3))
                                  english PaladinsAPI_init
                                  ltac:(cbn; lia))
                               _ eq_refl))).
Defined.

Lemma records_are_mapped_witness :
  fst (get_match_history (entities := entities)
         (endpoint := by_method [("getmatchhistory",
                                  Ret [history_record; history_message])])
         0 (OfPartialPlayer (partial_player 3)) english PaladinsAPI_init)
  = Ret [history_record; history_message]
  /\ fst (get_loadouts (entities := entities)
            (endpoint := by_method [("getplayerloadouts", Ret [])])
            0 (OfPartialPlayer (partial_player 3)) english PaladinsAPI_init)
     = Ret [].
Proof.
  split.
  - exact (proj2 (proj1 (records_are_mapped (entities := entities)
                           (endpoint := by_method
                              [("getmatchhistory",
                                Ret [history_record; history_message])])
                           0 (OfPartialPlayer (partial_player 3)) english
                           PaladinsAPI_init _ None ltac:(cbn; lia) eq_refl)
                        [history_record; history_message] eq_refl)
                 history_record [history_message] VNone
                 eq_refl eq_refl eq_refl).
  - exact (proj1 (proj2 (records_are_mapped (entities := entities)
                           (endpoint := by_method
                              [("getplayerloadouts", Ret [])])
                           0 (OfPartialPlayer (partial_player 3)) english
                           PaladinsAPI_init _ None ltac:(cbn; lia) eq_refl)
                        [] eq_refl)
                 eq_refl).
Defined.

Lemma get_status_outcome_witness :
  fst (get_status (status_entities := status_entities)
                  (endpoint := always [unknown_record])
                  (OfPartialPlayer (partial_player 3)) PaladinsAPI_init)
  = Ret None
  /\ fst (get_status (status_entities := status_entities)
                     (endpoint := always [offline_record])
                     (OfPartialPlayer (partial_player 3)) PaladinsAPI_init)
     = Ret (Some offline_record).
Proof.
  split.
  - exact (proj2 (get_status_outcome (status_entities := status_entities)
                    (endpoint := always [unknown_record])
                    (OfPartialPlayer (partial_player 3)) PaladinsAPI_init
                    [unknown_record] ltac:(cbn; lia) eq_refl)
                 unknown_record [] (VInt 5) eq_refl eq_refl).
  - exact (proj2 (get_status_outcome (status_entities := status_entities)
                    (endpoint := always [offline_record])
                    (OfPartialPlayer (partial_player 3)) PaladinsAPI_init
                    [offline_record] ltac:(cbn; lia) eq_refl)
                 offline_record [] (VInt 0) eq_refl eq_refl).
Defined.

Lemma api_assertions_witness :
  get_match (api_entities := api_entities) (endpoint := always [catalog_record])
            0 (VStr "9001") english PaladinsAPI_init
  = (Raise AssertionError, PaladinsAPI_init)
  /\ get_player (api_entities := api_entities)
                (endpoint := always [catalog_record]) VNone PaladinsAPI_init
     = (Raise AssertionError, PaladinsAPI_init)
  /\ search_players (api_entities := api_entities)
                    (endpoint := always [catalog_record])
                    (VInt 7) None PaladinsAPI_init
     = (Raise AssertionError, PaladinsAPI_init).
Proof.
  split; [|split].
  - exact (proj2 (proj2 (proj1 (api_assertions (api_entities := api_entities)
                                  (endpoint := always [catalog_record])
                                  0 (VStr "9001") english (1 : Z) None
                                  PaladinsAPI_init)
                               eq_refl))).
  - exact (proj1 (proj2 (api_assertions (api_entities := api_entities)
                           (endpoint := always [catalog_record])
                           0 VNone english (1 : Z) None PaladinsAPI_init))
                 eq_refl eq_refl).
  - exact (proj2 (proj2 (api_assertions (api_entities := api_entities)
                           (endpoint := always [catalog_record])
                           0 (VInt 7) english (1 : Z) None PaladinsAPI_init))
                 eq_refl).
Defined.

Lemma first_record_or_none_witness :
  get_player (api_entities := api_entities)
             (endpoint := always [found_foo; found_foobar])
             (VStr "Foo") PaladinsAPI_init
  = (Ret (Some found_foo),
     issued PaladinsAPI_init [("getplayer", [VStr "Foo"])])
  /\ fst (get_from_platform (api_entities := api_entities)
            (endpoint := always []) (VInt 76561198000000000) (5 : Z)
            PaladinsAPI_init)
     = Ret None.
Proof.
  split.
  - exact (proj1 (first_record_or_none (api_entities := api_entities)
                    (endpoint := always [found_foo; found_foobar])
                    (VStr "Foo") (5 : Z) PaladinsAPI_init)
                 eq_refl [found_foo; found_foobar] eq_refl).
  - exact (f_equal fst
             (proj2 (first_record_or_none (api_entities := api_entities)
                       (endpoint := always [])
                       (VInt 76561198000000000) (5 : Z) PaladinsAPI_init)
                    eq_refl [] eq_refl)).
Defined.

Lemma get_match_catalog_first_witness :
  get_match (api_entities := api_entities) (endpoint := down)
            0 (VInt 9001) english PaladinsAPI_init
  = (Raise TransportError, issued PaladinsAPI_init [champions_call english])
  /\ get_match (api_entities := api_entities)
               (endpoint := always [catalog_record])
               0 (VInt 9001) english PaladinsAPI_init
     = (Ret (Some (english, [catalog_record])),
        issued (snd (get_champion_info (endpoint := always [catalog_record])
                                       0 english false PaladinsAPI_init))
               [("getmatchdetails", [VInt 9001])]).
Proof.
  split.
  - exact (proj1 (get_match_catalog_first (api_entities := api_entities)
                    (endpoint := down) 0 (VInt 9001) english
                    PaladinsAPI_init eq_refl)
                 TransportError eq_refl).
  - exact (proj2 (get_match_catalog_first (api_entities := api_entities)
                    (endpoint := always [catalog_record]) 0 (VInt 9001)
                    english PaladinsAPI_init eq_refl)
                 _ [catalog_record] eq_refl eq_refl).
Defined.

Lemma search_players_exact_names_witness :
  search_players (api_entities := api_entities)
                 (endpoint := always [found_foo; found_foobar])
                 (VStr "Foo") None PaladinsAPI_init
  = (Ret [found_foo],
     issued PaladinsAPI_init [("searchplayers", [VStr "foo"])]).
Proof.
  exact (search_players_exact_names (api_entities := api_entities)
           (endpoint := always [found_foo; found_foobar])
           "Foo" PaladinsAPI_init [found_foo; found_foobar] eq_refl eq_refl).
Defined.

Lemma search_players_ignores_case_witness :
  search_players (api_entities := api_entities)
                 (endpoint := always [found_foo; found_foobar])
                 (VStr "FoO") (Some (10 : Z)) PaladinsAPI_init
  = search_players (api_entities := api_entities)
                   (endpoint := always [found_foo; found_foobar])
                   (VStr "fOo") (Some (10 : Z)) PaladinsAPI_init.
Proof.
  exact (proj1 (search_players_ignores_case (api_entities := api_entities)
                  (endpoint := always [found_foo; found_foobar])
                  "FoO" "fOo" (Some (10 : Z)) PaladinsAPI_init)
               eq_refl).
Defined.

End MoreWitnesses.
